(** * The Facebook-Gemini webhook relay (src/file.js), embedded in Rocq

    The server of [src/file.js] is an Express application with two webhook
    routes.  This development embeds its handlers as functions over

    - JavaScript values as the handlers see them (parsed JSON data,
      [undefined], and the few built-in objects an inherited property read
      can return),
    - a result type for normal completion against a thrown exception (a
      rejected promise, for the [async] functions),
    - a trace of the effects a handler performs (log lines, calls to the
      generative API, posts to the messaging API), threaded as state, the
      two remote services being oracles that answer from the history.

    Strings are JavaScript strings of well-formed Unicode text, held as their
    UTF-8 bytes: [String.length] is then the length of [Buffer.from(s)], and
    the bytes are what [hmac.update(s)] hashes. *)

From Stdlib Require Import ZArith List String Ascii Bool Lia.
Import ListNotations.

Local Open Scope string_scope.
Local Open Scope Z_scope.

(** ** Text helpers *)

Module Text.

Definition chr (n : nat) : string := String (ascii_of_nat n) EmptyString.

(** The double quote, the backslash and the line feed, which the string
    literals of this file do not spell. *)
Definition dquote : string := chr 34.
Definition backslash : string := chr 92.
Definition nl : string := chr 10.

Definition bytes_of_string (s : string) : list Z :=
  map (fun c => Z.of_nat (nat_of_ascii c)) (list_ascii_of_string s).

Definition hex_digit (d : Z) : string :=
  match d with
  | 0 => "0" | 1 => "1" | 2 => "2" | 3 => "3" | 4 => "4" | 5 => "5"
  | 6 => "6" | 7 => "7" | 8 => "8" | 9 => "9" | 10 => "a" | 11 => "b"
  | 12 => "c" | 13 => "d" | 14 => "e" | _ => "f"
  end.

(** Two lower-case hexadecimal digits for one byte. *)
Definition hex_byte (b : Z) : string :=
  hex_digit (Z.shiftr b 4) ++ hex_digit (Z.land b 15).

Definition hex_of_bytes (bs : list Z) : string :=
  fold_right (fun b acc => hex_byte b ++ acc) EmptyString bs.

(** A byte of the form 10xxxxxx continues a UTF-8 sequence. *)
Definition is_continuation (c : ascii) : bool :=
  let n := nat_of_ascii c in (128 <=? n)%nat && (n <? 192)%nat.

(** The code points of a string, each as the string of its bytes: what
    iterating a JavaScript string yields. *)
Fixpoint code_points_from (cur : string) (s : string) : list string :=
  match s with
  | EmptyString => [cur]
  | String c rest =>
      if is_continuation c
      then code_points_from (cur ++ String c EmptyString) rest
      else cur :: code_points_from (String c EmptyString) rest
  end.

Definition code_points (s : string) : list string :=
  match s with
  | EmptyString => []
  | String c rest => code_points_from (String c EmptyString) rest
  end.

(** White space and line terminators of ECMAScript, as UTF-8:
    U+0009..U+000D, U+0020, U+00A0, U+1680, U+2000..U+200A, U+2028, U+2029,
    U+202F, U+205F, U+3000, U+FEFF. *)
Definition is_js_space (cp : string) : bool :=
  match bytes_of_string cp with
  | [b] => ((9 <=? b) && (b <=? 13)) || (b =? 32)
  | [194; 160] => true
  | [225; 154; 128] => true
  | [226; 128; b] => ((128 <=? b) && (b <=? 138)) || (b =? 168) || (b =? 169) || (b =? 175)
  | [226; 129; 159] => true
  | [227; 128; 128] => true
  | [239; 187; 191] => true
  | _ => false
  end.

Fixpoint drop_spaces (l : list string) : list string :=
  match l with
  | cp :: rest => if is_js_space cp then drop_spaces rest else l
  | [] => []
  end.

(** [String.prototype.trim]. *)
Definition trim (s : string) : string :=
  String.concat EmptyString
    (rev (drop_spaces (rev (drop_spaces (code_points s))))).

End Text.

(** ** node:crypto, as far as the server uses it

    [crypto.createHmac('sha256', key).update(data).digest('hex')] is
    HMAC (RFC 2104) over SHA-256 (FIPS 180-4), written out here so that the
    handlers can be run on concrete requests. *)

Module Crypto.

Definition mask32 (x : Z) : Z := Z.land x 0xffffffff.
Definition add32 (x y : Z) : Z := mask32 (x + y).
Definition rotr (n x : Z) : Z :=
  Z.lor (Z.shiftr x n) (mask32 (Z.shiftl x (32 - n))).
Definition not32 (x : Z) : Z := Z.lxor x 0xffffffff.

Definition Ch (x y z : Z) : Z := Z.lxor (Z.land x y) (Z.land (not32 x) z).
Definition Maj (x y z : Z) : Z :=
  Z.lxor (Z.lxor (Z.land x y) (Z.land x z)) (Z.land y z).
Definition bsig0 (x : Z) : Z := Z.lxor (Z.lxor (rotr 2 x) (rotr 13 x)) (rotr 22 x).
Definition bsig1 (x : Z) : Z := Z.lxor (Z.lxor (rotr 6 x) (rotr 11 x)) (rotr 25 x).
Definition ssig0 (x : Z) : Z := Z.lxor (Z.lxor (rotr 7 x) (rotr 18 x)) (Z.shiftr x 3).
Definition ssig1 (x : Z) : Z := Z.lxor (Z.lxor (rotr 17 x) (rotr 19 x)) (Z.shiftr x 10).

(** The constants of FIPS 180-4 are fractions of roots of the first
    primes, thirty-two bits each: of the cube roots of the first sixty-four
    for the rounds, of the square roots of the first eight for the initial
    hash value. *)
Definition is_prime (n : nat) : bool :=
  forallb (fun d => negb (Nat.eqb (Nat.modulo n d) 0)) (seq 2 (n - 2)).

Definition first_primes (count : nat) : list Z :=
  map Z.of_nat (firstn count (filter is_prime (seq 2 400))).

(** The largest [r] below [2 ^ bits] with [r ^ 3 <= n], bit by bit. *)
Fixpoint cube_root_bits (bits : nat) (n r : Z) : Z :=
  match bits with
  | O => r
  | S bits' =>
      let r' := r + 2 ^ Z.of_nat bits' in
      cube_root_bits bits' n (if r' * r' * r' <=? n then r' else r)
  end.

Definition cube_root_fraction (p : Z) : Z :=
  mask32 (cube_root_bits 40 (p * 2 ^ 96) 0).

Definition square_root_fraction (p : Z) : Z :=
  mask32 (Z.sqrt (p * 2 ^ 64)).

Definition K : list Z :=
  Eval vm_compute in map cube_root_fraction (first_primes 64).

(** The eight working variables, and the hash value between blocks. *)
Record regs := Regs { ra : Z; rb : Z; rc : Z; rd : Z; re : Z; rf : Z; rg : Z; rh : Z }.

Definition regs_of_list (l : list Z) : regs :=
  Regs (nth 0 l 0) (nth 1 l 0) (nth 2 l 0) (nth 3 l 0)
       (nth 4 l 0) (nth 5 l 0) (nth 6 l 0) (nth 7 l 0).

Definition H0 : regs :=
  Eval vm_compute in regs_of_list (map square_root_fraction (first_primes 8)).

Definition round (r : regs) (k w : Z) : regs :=
  let t1 := add32 (add32 (add32 (add32 (rh r) (bsig1 (re r))) (Ch (re r) (rf r) (rg r))) k) w in
  let t2 := add32 (bsig0 (ra r)) (Maj (ra r) (rb r) (rc r)) in
  Regs (add32 t1 t2) (ra r) (rb r) (rc r) (add32 (rd r) t1) (re r) (rf r) (rg r).

(** The message schedule is kept as a window of sixteen words: its head is
    the word of the current round, and the word sixteen rounds ahead is
    appended as the head is consumed. *)
Definition next_word (win : list Z) : Z :=
  add32 (add32 (add32 (ssig1 (nth 14 win 0)) (nth 9 win 0)) (ssig0 (nth 1 win 0)))
        (nth 0 win 0).

Fixpoint rounds (ks : list Z) (win : list Z) (r : regs) : regs :=
  match ks with
  | [] => r
  | k :: ks' => rounds ks' (tl win ++ [next_word win])%list (round r k (hd 0 win))
  end.

Definition add_regs (x y : regs) : regs :=
  Regs (add32 (ra x) (ra y)) (add32 (rb x) (rb y)) (add32 (rc x) (rc y))
       (add32 (rd x) (rd y)) (add32 (re x) (re y)) (add32 (rf x) (rf y))
       (add32 (rg x) (rg y)) (add32 (rh x) (rh y)).

(** Big-endian 32-bit words of a byte list whose length is a multiple of 4. *)
Fixpoint words_of_bytes (bs : list Z) : list Z :=
  match bs with
  | b0 :: b1 :: b2 :: b3 :: rest =>
      (Z.shiftl b0 24 + Z.shiftl b1 16 + Z.shiftl b2 8 + b3) :: words_of_bytes rest
  | _ => []
  end.

Definition bytes_of_word (w : Z) : list Z :=
  [ Z.land (Z.shiftr w 24) 255; Z.land (Z.shiftr w 16) 255;
    Z.land (Z.shiftr w 8) 255; Z.land w 255 ].

Definition bytes_of_word64 (w : Z) : list Z :=
  (bytes_of_word (Z.shiftr w 32) ++ bytes_of_word (mask32 w))%list.

(** Padding: a one bit, zero bits up to 56 modulo 64 bytes, and the bit
    length in 64 bits. *)
Definition pad (msg : list Z) : list Z :=
  let len := Z.of_nat (List.length msg) in
  let zeros := Z.to_nat ((55 - len) mod 64) in
  (msg ++ [128] ++ repeat 0 zeros ++ bytes_of_word64 (8 * len))%list.

(** One block of sixteen words at a time; [fuel] bounds the number of
    blocks. *)
Fixpoint blocks (fuel : nat) (ws : list Z) (h : regs) : regs :=
  match fuel, ws with
  | S fuel', _ :: _ =>
      blocks fuel' (skipn 16 ws) (add_regs h (rounds K (firstn 16 ws) h))
  | _, _ => h
  end.

Definition sha256 (msg : list Z) : list Z :=
  let ws := words_of_bytes (pad msg) in
  let h := blocks (List.length ws) ws H0 in
  flat_map bytes_of_word
    [ra h; rb h; rc h; rd h; re h; rf h; rg h; rh h].

Definition hmac_sha256 (key msg : list Z) : list Z :=
  let k := if (64 <? Z.of_nat (List.length key)) then sha256 key else key in
  let k := (k ++ repeat 0 (64 - List.length k)%nat)%list in
  sha256 (map (Z.lxor 0x5c) k ++ sha256 (map (Z.lxor 0x36) k ++ msg))%list.

(** [createHmac('sha256', key).update(data).digest('hex')] on strings. *)
Definition hmac_sha256_hex (key data : string) : string :=
  Text.hex_of_bytes
    (hmac_sha256 (Text.bytes_of_string key) (Text.bytes_of_string data)).

End Crypto.

(** ** JavaScript values and the operations the handlers apply to them *)

Module JS.

(** Data as [JSON.parse] (and the query-string parser) builds it.  A
    Number is carried by its rendering under Number::toString ("-0" renders
    as "0"): the handlers only ever turn a Number into a string or test
    whether it is truthy, and both are read off the rendering.  An object
    holds its own properties in property order. *)
#[warnings="-register-all"] Inductive json : Type :=
| JNull
| JBool (b : bool)
| JNum (rendering : string)
| JStr (s : string)
| JArr (items : list json)
| JObj (props : list (string * json)).

(** Built-in objects that a read of an inherited property returns. *)
Inductive native : Type :=
| ObjectPrototype
| BuiltinFunction (name : string).

Inductive value : Type :=
| Undefined
| Data (j : json)
| Native (n : native).

Definition Str (s : string) : value := Data (JStr s).

(** Exceptions: the name of the constructor and the [message]. *)
Record error : Type := Error { err_name : string; err_message : string }.

Definition TypeError (msg : string) : error := Error "TypeError" msg.
Definition RangeError (msg : string) : error := Error "RangeError" msg.

(** Normal completion, or a throw. *)
Inductive result (A : Type) : Type :=
| Ok (a : A)
| Throw (e : error).
Arguments Ok {A} a.
Arguments Throw {A} e.

Definition rbind {A B : Type} (r : result A) (k : A -> result B) : result B :=
  match r with
  | Ok a => k a
  | Throw e => Throw e
  end.

Fixpoint assoc {A : Type} (k : string) (l : list (string * A)) : option A :=
  match l with
  | [] => None
  | (k', a) :: rest => if String.eqb k k' then Some a else assoc k rest
  end.

(** ToBoolean. *)
Definition truthy (v : value) : bool :=
  match v with
  | Undefined => false
  | Data JNull => false
  | Data (JBool b) => b
  | Data (JNum r) => negb (String.eqb r "0" || String.eqb r "NaN")
  | Data (JStr s) => negb (String.eqb s EmptyString)
  | Data (JArr _) | Data (JObj _) => true
  | Native _ => true
  end.

(** The property names that the handlers read off request data.  None of
    them is defined by a built-in prototype (Object, Array, String, Number,
    Boolean, Function), so that such a read finds an own property of an
    object or nothing. *)
Inductive field : Type :=
| f_sender | f_recipient | f_id | f_message | f_text | f_postback
| f_payload | f_quick_reply | f_object | f_entry | f_messaging.

Definition field_name (f : field) : string :=
  match f with
  | f_sender => "sender"
  | f_recipient => "recipient"
  | f_id => "id"
  | f_message => "message"
  | f_text => "text"
  | f_postback => "postback"
  | f_payload => "payload"
  | f_quick_reply => "quick_reply"
  | f_object => "object"
  | f_entry => "entry"
  | f_messaging => "messaging"
  end.

(** [v.f]: reading a property of [undefined] or [null] throws. *)
Definition get (v : value) (f : field) : result value :=
  match v with
  | Undefined =>
      Throw (TypeError ("Cannot read properties of undefined (reading '"
                        ++ field_name f ++ "')"))
  | Data JNull =>
      Throw (TypeError ("Cannot read properties of null (reading '"
                        ++ field_name f ++ "')"))
  | Data (JObj props) =>
      match assoc (field_name f) props with
      | Some j => Ok (Data j)
      | None => Ok Undefined
      end
  | _ => Ok Undefined
  end.

(** [v === s] for a string [s]. *)
Definition is_string (v : value) (s : string) : bool :=
  match v with
  | Data (JStr t) => String.eqb t s
  | _ => false
  end.

(** ToString on data, as a template literal or a computed property name
    applies it.  An array joins its elements, [null] elements as the empty
    string.  A parsed object inherits [Object.prototype.toString] unless it
    has an own property of that name, which is then data and not callable;
    [valueOf] gives no primitive either, so the conversion throws. *)
Fixpoint json_to_string (j : json) : result string :=
  match j with
  | JNull => Ok "null"
  | JBool b => Ok (if b then "true" else "false")
  | JNum r => Ok r
  | JStr s => Ok s
  | JArr items =>
      (fix join (l : list json) : result string :=
         match l with
         | [] => Ok EmptyString
         | x :: rest =>
             rbind (match x with JNull => Ok EmptyString | _ => json_to_string x end)
               (fun s =>
                  match rest with
                  | [] => Ok s
                  | _ :: _ => rbind (join rest) (fun r => Ok (s ++ "," ++ r))
                  end)
         end) items
  | JObj props =>
      match assoc "toString" props with
      | Some _ => Throw (TypeError "Cannot convert object to primitive value")
      | None => Ok "[object Object]"
      end
  end.

Definition to_string (v : value) : result string :=
  match v with
  | Undefined => Ok "undefined"
  | Data j => json_to_string j
  | Native ObjectPrototype => Ok "[object Object]"
  | Native (BuiltinFunction name) => Ok ("function " ++ name ++ "() { [native code] }")
  end.

(** QuoteJSONString, on UTF-8 bytes: the two-character escapes, a
    backslash with u00 and two hexadecimal digits for the other control
    characters, every other byte as it is. *)
Definition quote_char (c : ascii) : string :=
  let n := Z.of_nat (nat_of_ascii c) in
  match n with
  | 8 => Text.backslash ++ "b"
  | 9 => Text.backslash ++ "t"
  | 10 => Text.backslash ++ "n"
  | 12 => Text.backslash ++ "f"
  | 13 => Text.backslash ++ "r"
  | 34 => Text.backslash ++ Text.dquote
  | 92 => Text.backslash ++ Text.backslash
  | _ =>
      if n <? 32 then Text.backslash ++ "u00" ++ Text.hex_byte n
      else String c EmptyString
  end.

Fixpoint quote_body (s : string) : string :=
  match s with
  | EmptyString => EmptyString
  | String c rest => quote_char c ++ quote_body rest
  end.

Definition quote (s : string) : string :=
  Text.dquote ++ quote_body s ++ Text.dquote.

Definition is_finite (rendering : string) : bool :=
  negb (String.eqb rendering "Infinity" || String.eqb rendering "-Infinity"
        || String.eqb rendering "NaN").

(** The brackets around the serialized members of an array or object:
    [stepback] is the indentation of the enclosing level. *)
Definition wrap (gap stepback opening closing : string) (members : list string) : string :=
  match members with
  | [] => opening ++ closing
  | _ :: _ =>
      if String.eqb gap EmptyString
      then opening ++ String.concat "," members ++ closing
      else
        let indent := stepback ++ gap in
        opening ++ Text.nl ++ indent
        ++ String.concat ("," ++ Text.nl ++ indent) members
        ++ Text.nl ++ stepback ++ closing
  end.

(** SerializeJSONProperty on data, [indent] being the current indentation
    and [gap] what each level adds. *)
Fixpoint serialize (gap indent : string) (j : json) : string :=
  match j with
  | JNull => "null"
  | JBool b => if b then "true" else "false"
  | JNum r => if is_finite r then r else "null"
  | JStr s => quote s
  | JArr items =>
      wrap gap indent "[" "]"
        ((fix members (l : list json) : list string :=
            match l with
            | [] => []
            | x :: rest => serialize gap (indent ++ gap) x :: members rest
            end) items)
  | JObj props =>
      wrap gap indent "{" "}"
        ((fix members (l : list (string * json)) : list string :=
            match l with
            | [] => []
            | (k, x) :: rest =>
                (quote k ++ ":"
                 ++ (if String.eqb gap EmptyString then EmptyString else " ")
                 ++ serialize gap (indent ++ gap) x) :: members rest
            end) props)
  end.

(** [JSON.stringify(v)] and [JSON.stringify(v, null, 2)]: [None] is the
    result [undefined], which only [undefined] and a function give. *)
Definition JSON_stringify_gap (gap : string) (v : value) : option string :=
  match v with
  | Undefined => None
  | Data j => Some (serialize gap EmptyString j)
  | Native ObjectPrototype => Some "{}"
  | Native (BuiltinFunction _) => None
  end.

Definition JSON_stringify : value -> option string := JSON_stringify_gap EmptyString.
Definition JSON_stringify_2 : value -> option string := JSON_stringify_gap "  ".

(** The values a [for ... of] loop draws from [v]: the elements of an
    array, the code points of a string; nothing else here is iterable.
    [what] is the source text of the iterated expression, which the
    engine's message quotes. *)
Definition iterate (what : string) (v : value) : result (list value) :=
  match v with
  | Data (JArr items) => Ok (map Data items)
  | Data (JStr s) => Ok (map Str (Text.code_points s))
  | _ => Throw (TypeError (what ++ " is not iterable"))
  end.

End JS.

Export JS.

(** ** Effects: the log, the two remote services, exceptions *)

Module Effects.

(** The four methods of the [logger] object (lines 26-31).  A log effect
    holds the message handed to the method; the console line adds the level
    tag and, for [info] and [error], the time. *)
Inductive level : Type := INFO | ERROR | SUCCESS | WARN.

(** The object that [sendMessageToFacebook] posts. *)
Record send_payload : Type := SendPayload {
  recipient_id : value;
  message_text : value;
  access_token : option string
}.

Inductive effect : Type :=
| Log (l : level) (msg : string)
| GenerateContent (prompt : string)
| AxiosPost (url : string) (payload : send_payload).

(** Effects in the order they happen, oldest first. *)
Definition trace : Type := list effect.

(** The remote services answer a call from the history of the request so
    far.  The generative API gives the text of the response, or the error
    that [generateContent], [result.response] or [response.text()] raises.
    The messaging API gives the status of the response that [axios.post]
    resolves with, or the error it rejects with. *)
Record world : Type := World {
  generative_api : trace -> string -> string + error;
  messaging_api : trace -> string -> send_payload -> Z + error
}.

(** A computation runs from the trace so far to a result and the extended
    trace.  A throw in an [async] function is the rejection of its promise;
    [await] passes it on. *)
Definition M (A : Type) : Type := trace -> result A * trace.

Definition ret {A : Type} (a : A) : M A := fun t => (Ok a, t).

Definition lift {A : Type} (r : result A) : M A := fun t => (r, t).

Definition bind {A B : Type} (m : M A) (k : A -> M B) : M B :=
  fun t =>
    match m t with
    | (Ok a, t') => k a t'
    | (Throw e, t') => (Throw e, t')
    end.

Definition emit (e : effect) : M unit := fun t => (Ok tt, (t ++ [e])%list).

(** [try { m } catch (error) { h error }]. *)
Definition try_catch {A : Type} (m : M A) (h : error -> M A) : M A :=
  fun t =>
    match m t with
    | (Ok a, t') => (Ok a, t')
    | (Throw e, t') => h e t'
    end.

(** [for (const x of l) { body x }]: a throw leaves the loop. *)
Fixpoint for_of {A : Type} (l : list A) (body : A -> M unit) : M unit :=
  match l with
  | [] => ret tt
  | x :: rest => bind (body x) (fun _ => for_of rest body)
  end.

End Effects.

Export Effects.

Declare Scope js_scope.
Delimit Scope js_scope with js.
Notation "x <- m ;; k" := (bind m (fun x => k))
  (at level 61, m at next level, right associativity) : js_scope.
Notation "m ;;; k" := (bind m (fun _ => k))
  (at level 61, right associativity) : js_scope.
Local Open Scope js_scope.

(** ** The server of src/file.js *)

(** Configuration read from the environment at start-up (lines 11-14): a
    variable that is not set is [undefined]. *)
Record config : Type := Config {
  GEMINI_API_KEY : option string;
  FACEBOOK_VERIFY_TOKEN : option string;
  FACEBOOK_PAGE_ACCESS_TOKEN : option string;
  FACEBOOK_APP_SECRET : option string
}.

(** What a handler reads of an incoming request: [req.query[name]] (a
    string, an array or an object from the query-string parser, [undefined]
    when the parameter is absent), [req.headers[name]], [req.rawBody] and
    [req.body]. *)
Record request : Type := Request {
  query : string -> value;
  headers : string -> option string;
  rawBody : option string;
  body : value
}.

(** [res.status(status).send(sent)]. *)
Record response : Type := Response {
  status : Z;
  sent : value
}.

Definition logger_info (msg : string) : M unit := emit (Log INFO msg).
Definition logger_error (msg : string) : M unit := emit (Log ERROR msg).
Definition logger_success (msg : string) : M unit := emit (Log SUCCESS msg).

Definition apology : string :=
  "Thank you for your message. I'm having technical difficulties. Please try again later.".

Definition fallback : string := "I didn't understand that action.".

Definition messages_url : string := "https://graph.facebook.com/v18.0/me/messages".

(** The prompt template of [generateResponseWithGemini] (lines 134-140). *)
Definition prompt_of (userMessage : string) : string :=
  "You are a helpful customer service assistant for a Facebook business page."
  ++ Text.nl ++ Text.nl
  ++ "User message: " ++ Text.dquote ++ userMessage ++ Text.dquote
  ++ Text.nl ++ Text.nl
  ++ "Please provide a friendly, concise response (max 500 characters). "
  ++ Text.nl
  ++ "If it's a question, answer helpfully. If it's a complaint, empathize and offer solutions."
  ++ Text.nl
  ++ "Always be professional and courteous.".

(** The own properties of the [responses] literal of [handlePostback]
    (lines 162-166). *)
Definition responses : list (string * string) :=
  [ ("GET_STARTED", "Welcome! 👋 How can I help you today?");
    ("MENU_INFO", "Here's our business information...");
    ("MENU_SUPPORT", "Select an issue: 1) Billing 2) Technical 3) General") ].

(** The properties of [Object.prototype], which an object literal inherits:
    its methods, and the accessor [__proto__], which reads as the prototype
    itself. *)
Definition Object_prototype (key : string) : value :=
  if String.eqb key "__proto__" then Native ObjectPrototype
  else if String.eqb key "constructor" then Native (BuiltinFunction "Object")
  else if existsb (String.eqb key)
            [ "hasOwnProperty"; "isPrototypeOf"; "propertyIsEnumerable";
              "toLocaleString"; "toString"; "valueOf";
              "__defineGetter__"; "__defineSetter__";
              "__lookupGetter__"; "__lookupSetter__" ]
  then Native (BuiltinFunction key)
  else Undefined.

(** [responses[key]]: an own property, or else an inherited one. *)
Definition responses_get (key : string) : value :=
  match assoc key responses with
  | Some s => Str s
  | None => Object_prototype key
  end.

(** [crypto.timingSafeEqual(Buffer.from(a), Buffer.from(b))]: buffers of
    different byte lengths are refused with an exception. *)
Definition timingSafeEqual (a b : string) : result bool :=
  if Nat.eqb (String.length a) (String.length b)
  then Ok (String.eqb a b)
  else Throw (RangeError "Input buffers must have the same byte length").

Section Server.

Variable cfg : config.
Variable w : world.

(** [await model.generateContent(prompt)] and the reading of the text off
    its result: one call to the generative API. *)
Definition generateContent (prompt : string) : M string :=
  fun t =>
    (match generative_api w t prompt with
     | inl text => Ok text
     | inr e => Throw e
     end, (t ++ [GenerateContent prompt])%list).

(** [await axios.post(url, payload)]: one call to the messaging API,
    resolving with the status of the response. *)
Definition axios_post (url : string) (payload : send_payload) : M Z :=
  fun t =>
    (match messaging_api w t url payload with
     | inl st => Ok st
     | inr e => Throw e
     end, (t ++ [AxiosPost url payload])%list).

(** Lines 174-199. *)
Definition sendMessageToFacebook (recipientId messageText : value) : M unit :=
  try_catch
    (let url := messages_url in
     let payload := SendPayload recipientId messageText (FACEBOOK_PAGE_ACCESS_TOKEN cfg) in
     response_status <- axios_post url payload ;;
     if response_status =? 200
     then (r <- lift (to_string recipientId) ;;
           logger_success ("Message sent to " ++ r))
     else ret tt)
    (fun error =>
       logger_error ("Failed to send message to Facebook: " ++ err_message error)).

(** Lines 127-152. *)
Definition generateResponseWithGemini (userMessage : value) : M string :=
  try_catch
    (u <- lift (to_string userMessage) ;;
     let prompt := prompt_of u in
     response_text <- generateContent prompt ;;
     let aiText := Text.trim response_text in
     logger_success ("Gemini response: " ++ aiText) ;;;
     ret aiText)
    (fun error =>
       logger_error ("Error calling Gemini API: " ++ err_message error) ;;;
       ret apology).

(** Lines 156-170. *)
Definition handlePostback (senderId payload : value) : M unit :=
  p <- lift (to_string payload) ;;
  logger_info ("Processing postback: " ++ p) ;;;
  key <- lift (to_string payload) ;;
  let found := responses_get key in
  let response := if truthy found then found else Str fallback in
  sendMessageToFacebook senderId response.

(** Lines 86-123. *)
Definition processMessage (event : value) : M unit :=
  senderId <- lift (rbind (get event f_sender) (fun s => get s f_id)) ;;
  recipientId <- lift (rbind (get event f_recipient) (fun r => get r f_id)) ;;
  event_message <- lift (get event f_message) ;;
  if truthy event_message then
    let messageData := event_message in
    userMessage <- lift (get messageData f_text) ;;
    if truthy userMessage then
      s <- lift (to_string senderId) ;;
      u <- lift (to_string userMessage) ;;
      logger_info ("Message from " ++ s ++ ": " ++ u) ;;;
      aiResponse <- generateResponseWithGemini userMessage ;;
      sendMessageToFacebook senderId (Str aiResponse)
    else ret tt
  else
    event_postback <- lift (get event f_postback) ;;
    if truthy event_postback then
      postbackPayload <- lift (get event_postback f_payload) ;;
      s <- lift (to_string senderId) ;;
      p <- lift (to_string postbackPayload) ;;
      logger_info ("Postback from " ++ s ++ ": " ++ p) ;;;
      handlePostback senderId postbackPayload
    else
      event_message' <- lift (get event f_message) ;;
      quick_reply <- (if truthy event_message'
                      then lift (get event_message' f_quick_reply)
                      else ret event_message') ;;
      if truthy quick_reply then
        quick' <- lift (rbind (get event f_message) (fun m => get m f_quick_reply)) ;;
        quickReplyPayload <- lift (get quick' f_payload) ;;
        s <- lift (to_string senderId) ;;
        q <- lift (to_string quickReplyPayload) ;;
        logger_info ("Quick reply from " ++ s ++ ": " ++ q)
      else ret tt.

(** Lines 203-223.  [req.rawBody || JSON.stringify(req.body)] takes the raw
    body when it is a non-empty string.  [createHmac] refuses a key that is
    [undefined], and [update] data that is. *)
Definition verifyRequestSignature (req : request) : result bool :=
  match headers req "x-hub-signature-256" with
  | None => Ok false
  | Some xHubSignature =>
      if String.eqb xHubSignature EmptyString then Ok false
      else
        let body :=
          match rawBody req with
          | Some raw =>
              if String.eqb raw EmptyString then JSON_stringify (body req) else Some raw
          | None => JSON_stringify (body req)
          end in
        match FACEBOOK_APP_SECRET cfg with
        | None =>
            Throw (TypeError
              ("The " ++ Text.dquote ++ "key" ++ Text.dquote
               ++ " argument must be of type string or an instance of ArrayBuffer, Buffer, TypedArray, DataView, KeyObject, or CryptoKey. Received undefined"))
        | Some secret =>
            match body with
            | None =>
                Throw (TypeError
                  ("The " ++ Text.dquote ++ "data" ++ Text.dquote
                   ++ " argument must be of type string or an instance of Buffer, TypedArray, or DataView. Received undefined"))
            | Some data =>
                let expectedSignature := "sha256=" ++ Crypto.hmac_sha256_hex secret data in
                timingSafeEqual xHubSignature expectedSignature
            end
        end
  end.

(** [v === FACEBOOK_VERIFY_TOKEN]: the token is a string or [undefined], and
    no array or object is strictly equal to either. *)
Definition equals_verify_token (v : value) : bool :=
  match v, FACEBOOK_VERIFY_TOKEN cfg with
  | Undefined, None => true
  | Data (JStr s), Some t => String.eqb s t
  | _, _ => false
  end.

(** [GET /webhook], lines 35-50. *)
Definition get_webhook (req : request) : M response :=
  let verifyToken := query req "hub.verify_token" in
  let challenge := query req "hub.challenge" in
  if equals_verify_token verifyToken then
    logger_success "Webhook verified successfully" ;;;
    ret (Response 200 challenge)
  else
    logger_error "Webhook verification failed" ;;;
    ret (Response 403 (Str "Invalid verification token")).

(** The loop body of lines 72-76. *)
Definition handle_event (messagingEvent : value) : M unit :=
  try_catch (processMessage messagingEvent)
    (fun error => logger_error ("Error processing message: " ++ err_message error)).

(** [POST /webhook], lines 54-82.  The handler is [async]: a throw outside
    the inner [try] rejects its promise, and no response has been sent. *)
Definition post_webhook (req : request) : M response :=
  verified <- lift (verifyRequestSignature req) ;;
  if negb verified then
    logger_error "Invalid request signature" ;;;
    ret (Response 403 (Str "Unauthorized"))
  else
    let body := body req in
    logger_info ("Received webhook: "
                 ++ match JSON_stringify_2 body with
                    | Some s => s
                    | None => "undefined"
                    end) ;;;
    body_object <- lift (get body f_object) ;;
    (if is_string body_object "page" then
       entries <- lift (rbind (get body f_entry) (iterate "body.entry")) ;;
       for_of entries (fun entry =>
         events <- lift (rbind (get entry f_messaging) (iterate "entry.messaging")) ;;
         for_of events handle_event)
     else ret tt) ;;;
    ret (Response 200 (Str "OK")).

End Server.

(** ** The application: middleware and routes in registration order

    Express runs the layers of an application in the order of their
    registration until one of them answers.  The layers of src/file.js are
    the two body parsers of lines 21-22, the three routes, the 404 layer of
    line 242, the error layer of line 246 and, registered last (line 253), a
    second JSON body parser whose [verify] option stores the raw body.

    The model follows Express 4 with its body parser on a message that is
    either without a body or of content type application/json: a parser
    leaves a request alone whose body has been parsed already, [req.body]
    defaults to the empty object, a failure to parse goes to the error
    layer, and the rejected promise of an [async] handler reaches no layer
    at all, so that nothing is sent. *)

Record http_message : Type := HttpMessage {
  http_method : string;
  http_path : string;   (* the path of the URL, without the query *)
  http_query : string -> value;
  http_headers : string -> option string;
  http_content : option string
}.

Definition lower (c : ascii) : ascii :=
  let n := nat_of_ascii c in
  if (65 <=? n)%nat && (n <=? 90)%nat then ascii_of_nat (n + 32) else c.

Fixpoint lowercase (s : string) : string :=
  match s with
  | String c rest => String (lower c) (lowercase rest)
  | EmptyString => EmptyString
  end.

(** A route matches the path of a message without regard to case, and with
    or without a slash at its end; the routes here are in lower case. *)
Definition path_matches (route path : string) : bool :=
  String.eqb (lowercase path) route || String.eqb (lowercase path) (route ++ "/").

(** A route for GET also answers HEAD. *)
Definition method_matches (route_method method : string) : bool :=
  String.eqb method route_method
  || (String.eqb route_method "GET" && String.eqb method "HEAD").

Inductive layer : Type :=
| use_json (verify : bool)
| use_urlencoded
| on (method path : string) (handler : request -> M response)
| use_not_found
| use_error_handler.

(** The request on its way through the layers: [fl_parsed] is the mark
    [req._body] of the body parsers, [fl_failed] the error handed to
    [next]. *)
Record in_flight : Type := InFlight {
  fl_msg : http_message;
  fl_req : request;
  fl_parsed : bool;
  fl_failed : option error
}.

Definition set_body (r : request) (b : value) : request :=
  Request (query r) (headers r) (rawBody r) b.

Definition set_rawBody (r : request) (raw : string) : request :=
  Request (query r) (headers r) (Some raw) (body r).

Section App.

Variable cfg : config.
Variable w : world.

(** What the body parser makes of the content of a JSON message:
    [JSON.parse] behind the parser's own checks, [None] where it fails. *)
Variable parse_body : string -> option value.

(** [GET /health], lines 227-238, [now] being the time of the call and
    [node_env] the environment variable NODE_ENV. *)
Variable now : string.
Variable node_env : option string.

Definition is_set (v : option string) : bool :=
  match v with
  | Some s => negb (String.eqb s EmptyString)
  | None => false
  end.

Definition health (_ : request) : M response :=
  ret (Response 200 (Data (JObj
    [ ("status", JStr "running");
      ("timestamp", JStr now);
      ("gemini_configured", JBool (is_set (GEMINI_API_KEY cfg)));
      ("facebook_configured", JBool (is_set (FACEBOOK_PAGE_ACCESS_TOKEN cfg)));
      ("environment", JStr (match node_env with
                            | Some e => if String.eqb e EmptyString then "development" else e
                            | None => "development"
                            end)) ]))).

Definition app : list layer :=
  [ use_json false;
    use_urlencoded;
    on "GET" "/webhook" (get_webhook cfg);
    on "POST" "/webhook" (post_webhook cfg w);
    on "GET" "/health" health;
    use_not_found;
    use_error_handler;
    use_json true ].

(** One layer: it answers, or passes the request on. *)
Definition step (l : layer) (f : in_flight) : M response + in_flight :=
  match l, fl_failed f with
  | use_json verify, None =>
      if fl_parsed f then inr f
      else
        match http_content (fl_msg f) with
        | None => inr f
        | Some raw =>
            let r := if verify then set_rawBody (fl_req f) raw else fl_req f in
            match parse_body raw with
            | Some b => inr (InFlight (fl_msg f) (set_body r b) true None)
            | None =>
                inr (InFlight (fl_msg f) r false
                       (Some (Error "SyntaxError" "Unexpected token in JSON")))
            end
        end
  | use_urlencoded, None => inr f
  | on method path handler, None =>
      if method_matches method (http_method (fl_msg f))
         && path_matches path (http_path (fl_msg f))
      then inl (handler (fl_req f))
      else inr f
  | use_not_found, None =>
      inl (ret (Response 404 (Data (JObj [("error", JStr "Endpoint not found")]))))
  | use_error_handler, Some err =>
      inl (logger_error ("Unhandled error: " ++ err_message err) ;;;
           ret (Response 500 (Data (JObj [("error", JStr "Internal server error")]))))
  | _, _ => inr f
  end.

Fixpoint run_layers (ls : list layer) (f : in_flight) : option (M response) :=
  match ls with
  | [] => None
  | l :: rest =>
      match step l f with
      | inl answer => Some answer
      | inr f' => run_layers rest f'
      end
  end.

(** The request as it enters the first layer. *)
Definition incoming (m : http_message) : in_flight :=
  InFlight m (Request (http_query m) (http_headers m) None (Data (JObj []))) false None.

(** The request that the first layer to answer is handed, for the routes. *)
Fixpoint handled_request (ls : list layer) (f : in_flight) : option request :=
  match ls with
  | [] => None
  | l :: rest =>
      match step l f with
      | inl _ => Some (fl_req f)
      | inr f' => handled_request rest f'
      end
  end.

Definition serve (m : http_message) : option (M response) :=
  run_layers app (incoming m).

End App.

(** ** JSON text, for running the application on concrete messages

    A reader for a fragment of JSON, used only where a concrete message is
    served: objects, arrays, strings, the three literals, and integers of
    magnitude below 2^53 written without fraction or exponent.  Where it
    answers, the answer is the value [JSON.parse] builds.  It gives no answer
    on text outside the fragment: other numbers, escapes of code points from
    U+0080, objects with a repeated key or with a key of digits only (which
    [JSON.parse] would move to the front of the property order). *)

Module JsonText.

Definition is_ws (c : ascii) : bool :=
  let n := nat_of_ascii c in
  (n =? 32)%nat || (n =? 9)%nat || (n =? 10)%nat || (n =? 13)%nat.

Fixpoint skip_ws (s : string) : string :=
  match s with
  | String c rest => if is_ws c then skip_ws rest else s
  | EmptyString => s
  end.

Definition hex_value (c : ascii) : option nat :=
  let n := nat_of_ascii c in
  if (48 <=? n)%nat && (n <=? 57)%nat then Some (n - 48)%nat
  else if (97 <=? n)%nat && (n <=? 102)%nat then Some (n - 87)%nat
  else if (65 <=? n)%nat && (n <=? 70)%nat then Some (n - 55)%nat
  else None.

Definition is_digit (c : ascii) : bool :=
  let n := nat_of_ascii c in (48 <=? n)%nat && (n <=? 57)%nat.

(** What an escape stands for, and how many characters it takes after the
    backslash. *)
Definition read_escape (s : string) : option (ascii * string) :=
  match s with
  | String e rest =>
      let n := nat_of_ascii e in
      if (n =? 34)%nat || (n =? 92)%nat || (n =? 47)%nat then Some (e, rest)
      else if (n =? 98)%nat then Some (ascii_of_nat 8, rest)
      else if (n =? 102)%nat then Some (ascii_of_nat 12, rest)
      else if (n =? 110)%nat then Some (ascii_of_nat 10, rest)
      else if (n =? 114)%nat then Some (ascii_of_nat 13, rest)
      else if (n =? 116)%nat then Some (ascii_of_nat 9, rest)
      else if (n =? 117)%nat then
        match rest with
        | String h1 (String h2 (String h3 (String h4 rest'))) =>
            match hex_value h1, hex_value h2, hex_value h3, hex_value h4 with
            | Some 0%nat, Some 0%nat, Some d3, Some d4 =>
                if (d3 <? 8)%nat then Some (ascii_of_nat (16 * d3 + d4), rest') else None
            | _, _, _, _ => None
            end
        | _ => None
        end
      else None
  | EmptyString => None
  end.

(** The characters of a string after its opening quote, up to the closing
    one, and the text that follows. *)
Fixpoint read_string (fuel : nat) (s : string) : option (string * string) :=
  match fuel, s with
  | S fuel', String c rest =>
      if (nat_of_ascii c =? 34)%nat then Some (EmptyString, rest)
      else if (nat_of_ascii c <? 32)%nat then None
      else
        match (if (nat_of_ascii c =? 92)%nat then read_escape rest else Some (c, rest)) with
        | Some (ch, after) =>
            match read_string fuel' after with
            | Some (content, tail) => Some (String ch content, tail)
            | None => None
            end
        | None => None
        end
  | _, _ => None
  end.

Fixpoint read_digits (s : string) : string * string :=
  match s with
  | String c rest =>
      if is_digit c
      then let (ds, tail) := read_digits rest in (String c ds, tail)
      else (EmptyString, s)
  | EmptyString => (EmptyString, s)
  end.

Fixpoint digits_value (acc : Z) (ds : string) : Z :=
  match ds with
  | String c rest => digits_value (10 * acc + Z.of_nat (nat_of_ascii c - 48)) rest
  | EmptyString => acc
  end.

Definition ends_number (s : string) : bool :=
  match s with
  | String c _ =>
      let n := nat_of_ascii c in
      negb ((n =? 46)%nat || (n =? 101)%nat || (n =? 69)%nat)
  | EmptyString => true
  end.

(** An integer: an optional minus sign, then 0 or digits not starting
    with 0.  The value is the rendering of the Number. *)
Definition read_integer (s : string) : option (json * string) :=
  let (negative, s') :=
    match s with
    | String c rest => if (nat_of_ascii c =? 45)%nat then (true, rest) else (false, s)
    | EmptyString => (false, s)
    end in
  let (ds, tail) := read_digits s' in
  match ds with
  | EmptyString => None
  | String d more =>
      if (nat_of_ascii d =? 48)%nat && negb (String.eqb more EmptyString) then None
      else if negb (ends_number tail) then None
      else
        let n := digits_value 0 ds in
        if 2 ^ 53 <=? n then None
        else if n =? 0 then Some (JNum "0", tail)
        else Some (JNum (if negative then "-" ++ ds else ds), tail)
  end.

Definition all_digits (k : string) : bool :=
  forallb is_digit (list_ascii_of_string k) && negb (String.eqb k EmptyString).

Definition starts_with (c : nat) (s : string) : option string :=
  match s with
  | String c' rest => if (nat_of_ascii c' =? c)%nat then Some rest else None
  | EmptyString => None
  end.

Definition literal (word : string) (j : json) (s : string) : option (json * string) :=
  if String.prefix word s
  then Some (j, String.substring (String.length word) (String.length s - String.length word) s)
  else None.

(** A value and the text after it; the elements of an array after its
    opening bracket; the members of an object after its opening brace. *)
Fixpoint read_value (fuel : nat) (s : string) : option (json * string) :=
  match fuel with
  | O => None
  | S fuel' =>
      match skip_ws s with
      | String c rest =>
          let n := nat_of_ascii c in
          if (n =? 123)%nat then
            match starts_with 125 (skip_ws rest) with
            | Some tail => Some (JObj [], tail)
            | None => read_members fuel' rest []
            end
          else if (n =? 91)%nat then
            match starts_with 93 (skip_ws rest) with
            | Some tail => Some (JArr [], tail)
            | None => read_elements fuel' rest []
            end
          else if (n =? 34)%nat then
            match read_string (String.length rest) rest with
            | Some (str, tail) => Some (JStr str, tail)
            | None => None
            end
          else if (n =? 116)%nat then literal "true" (JBool true) (skip_ws s)
          else if (n =? 102)%nat then literal "false" (JBool false) (skip_ws s)
          else if (n =? 110)%nat then literal "null" JNull (skip_ws s)
          else read_integer (skip_ws s)
      | EmptyString => None
      end
  end
with read_elements (fuel : nat) (s : string) (acc : list json) : option (json * string) :=
  match fuel with
  | O => None
  | S fuel' =>
      match read_value fuel' s with
      | Some (x, tail) =>
          match skip_ws tail with
          | String c rest =>
              if (nat_of_ascii c =? 44)%nat then read_elements fuel' rest (acc ++ [x])%list
              else if (nat_of_ascii c =? 93)%nat then Some (JArr (acc ++ [x])%list, rest)
              else None
          | EmptyString => None
          end
      | None => None
      end
  end
with read_members (fuel : nat) (s : string) (acc : list (string * json)) : option (json * string) :=
  match fuel with
  | O => None
  | S fuel' =>
      match starts_with 34 (skip_ws s) with
      | Some after_quote =>
          match read_string (String.length after_quote) after_quote with
          | Some (key, tail) =>
              if all_digits key then None
              else
                match assoc key acc with
                | Some _ => None
                | None =>
                    match starts_with 58 (skip_ws tail) with
                    | Some after_colon =>
                        match read_value fuel' after_colon with
                        | Some (x, tail') =>
                            match skip_ws tail' with
                            | String c rest =>
                                if (nat_of_ascii c =? 44)%nat
                                then read_members fuel' rest (acc ++ [(key, x)])%list
                                else if (nat_of_ascii c =? 125)%nat
                                then Some (JObj (acc ++ [(key, x)])%list, rest)
                                else None
                            | EmptyString => None
                            end
                        | None => None
                        end
                    | None => None
                    end
                end
          | None => None
          end
      | None => None
      end
  end.

(** [JSON.parse(text)] on the fragment. *)
Definition JSON_parse (text : string) : option json :=
  match read_value (S (String.length text)) text with
  | Some (j, tail) =>
      if String.eqb (skip_ws tail) EmptyString then Some j else None
  | None => None
  end.

(** The JSON body parser in its default strict mode: empty content is the
    empty object, and the text has to be an object or an array. *)
Definition express_json_parse (content : string) : option value :=
  if String.eqb content EmptyString then Some (Data (JObj []))
  else
    match JSON_parse content with
    | Some (JObj props) => Some (Data (JObj props))
    | Some (JArr items) => Some (Data (JArr items))
    | _ => None
    end.

End JsonText.

(** ** Vocabulary of the properties *)

(** A computation extends the trace it starts from. *)
Definition extends {A : Type} (m : M A) : Prop :=
  forall t, exists d, snd (m t) = (t ++ d)%list.

Definition is_log (e : effect) : bool :=
  match e with
  | Log _ _ => true
  | _ => false
  end.

(** The verify token as the value that [===] compares the query parameter
    with. *)
Definition verify_token_value (cfg : config) : value :=
  match FACEBOOK_VERIFY_TOKEN cfg with
  | Some t => Str t
  | None => Undefined
  end.

(** The payload that [sendMessageToFacebook] posts. *)
Definition send_of (cfg : config) (recipientId messageText : value) : effect :=
  AxiosPost messages_url
    (SendPayload recipientId messageText (FACEBOOK_PAGE_ACCESS_TOKEN cfg)).

(** [event.sender.id] and [event.recipient.id]. *)
Definition sender_id (event : value) : result value :=
  rbind (get event f_sender) (fun s => get s f_id).

Definition recipient_id_of (event : value) : result value :=
  rbind (get event f_recipient) (fun r => get r f_id).

(** A text-message event of the data model: the identifiers of sender and
    recipient can be read, the sender's has the rendering [s], and the
    message carries the non-empty text [u]. *)
Definition text_event (event sid : value) (s u : string) : Prop :=
  sender_id event = Ok sid
  /\ (exists rid, recipient_id_of event = Ok rid)
  /\ to_string sid = Ok s
  /\ rbind (get event f_message) (fun m => get m f_text) = Ok (Str u)
  /\ u <> EmptyString.

(** A body that declares itself a page webhook, whose entries and their
    messaging lists can be iterated: [ess] holds the events of each entry. *)
Definition page_entries (body : value) (ess : list (list value)) : Prop :=
  (exists o, get body f_object = Ok o /\ is_string o "page" = true)
  /\ exists entries,
       rbind (get body f_entry) (iterate "body.entry") = Ok entries
       /\ Forall2 (fun entry es =>
                     rbind (get entry f_messaging) (iterate "entry.messaging") = Ok es)
                  entries ess.

(** The first line that the handler logs for a verified request. *)
Definition received_line (body : value) : effect :=
  Log INFO ("Received webhook: "
            ++ match JSON_stringify_2 body with
               | Some s => s
               | None => "undefined"
               end).

(** The payloads posted to the messaging API, in order. *)
Definition posts_of (t : trace) : list send_payload :=
  flat_map (fun e => match e with AxiosPost _ p => [p] | _ => [] end) t.

(** The generative API fails on a prompt, whatever came before. *)
Definition generation_fails (w : world) (prompt : string) : Prop :=
  forall h, exists e, generative_api w h prompt = inr e.

(** [processMessage] without its third branch (lines 118-122), to compare
    with. *)
Definition processMessage_two_branches (cfg : config) (w : world) (event : value) : M unit :=
  senderId <- lift (rbind (get event f_sender) (fun s => get s f_id)) ;;
  recipientId <- lift (rbind (get event f_recipient) (fun r => get r f_id)) ;;
  event_message <- lift (get event f_message) ;;
  if truthy event_message then
    userMessage <- lift (get event_message f_text) ;;
    if truthy userMessage then
      s <- lift (to_string senderId) ;;
      u <- lift (to_string userMessage) ;;
      logger_info ("Message from " ++ s ++ ": " ++ u) ;;;
      aiResponse <- generateResponseWithGemini w userMessage ;;
      sendMessageToFacebook cfg w senderId (Str aiResponse)
    else ret tt
  else
    event_postback <- lift (get event f_postback) ;;
    if truthy event_postback then
      postbackPayload <- lift (get event_postback f_payload) ;;
      s <- lift (to_string senderId) ;;
      p <- lift (to_string postbackPayload) ;;
      logger_info ("Postback from " ++ s ++ ": " ++ p) ;;;
      handlePostback cfg w senderId postbackPayload
    else ret tt.

(** ** Concrete requests *)

Module Samples.

Definition cfg : config :=
  Config (Some "gemini-key") (Some "verify-me") (Some "page-token") (Some "app-secret").

(** Both services answer. *)
Definition services_up : world :=
  World (fun _ _ => inl "Hello!") (fun _ _ _ => inl 200).

(** Both services fail. *)
Definition services_down : world :=
  World (fun _ _ => inr (Error "Error" "503 Service Unavailable"))
        (fun _ _ _ => inr (Error "AxiosError" "Request failed with status code 400")).

Definition no_query : string -> value := fun _ => Undefined.

Definition query_of (token challenge : string) : string -> value :=
  fun name =>
    if String.eqb name "hub.verify_token" then Str token
    else if String.eqb name "hub.challenge" then Str challenge
    else Undefined.

Definition no_headers : string -> option string := fun _ => None.

Definition signed_with (signature : string) : string -> option string :=
  fun name => if String.eqb name "x-hub-signature-256" then Some signature else None.

(** The signature header for a body text under the app secret of [cfg]. *)
Definition signature_of (text : string) : string :=
  "sha256=" ++ Crypto.hmac_sha256_hex "app-secret" text.

(** The signature that the handler accepts for a parsed body. *)
Definition accepted_signature (b : value) : string :=
  match JSON_stringify b with
  | Some text => signature_of text
  | None => EmptyString
  end.

Definition party (id : string) : json := JObj [("id", JStr id)].

Definition text_message (sender text : string) : json :=
  JObj [ ("sender", party sender); ("recipient", party "page");
         ("message", JObj [("mid", JStr "m1"); ("text", JStr text)]) ].

(** A quick reply as the platform sends it: a message with the title of
    the button as its text and the payload beside it. *)
Definition quick_reply_message (sender text payload : string) : json :=
  JObj [ ("sender", party sender); ("recipient", party "page");
         ("message", JObj [ ("mid", JStr "m2"); ("text", JStr text);
                            ("quick_reply", JObj [("payload", JStr payload)]) ]) ].

Definition postback_event (sender payload : string) : json :=
  JObj [ ("sender", party sender); ("recipient", party "page");
         ("postback", JObj [("title", JStr "button"); ("payload", JStr payload)]) ].

(** A message without text: an attachment. *)
Definition attachment_message (sender : string) : json :=
  JObj [ ("sender", party sender); ("recipient", party "page");
         ("message", JObj [ ("mid", JStr "m3");
                            ("attachments", JArr [JObj [("type", JStr "image")]]) ]) ].

Definition page (entries : list json) : value :=
  Data (JObj [("object", JStr "page"); ("entry", JArr entries)]).

Definition entry_of (events : list json) : json :=
  JObj [("id", JStr "page"); ("time", JNum "1700000000000"); ("messaging", JArr events)].

(** An entry without a messaging list, as the platform sends for a change
    of the page feed. *)
Definition changes_entry : json :=
  JObj [("id", JStr "page"); ("time", JNum "1700000000000");
        ("changes", JArr [JObj [("field", JStr "feed")]])].

(** A request to [POST /webhook] with a parsed body and a signature header. *)
Definition post_request (signature : string) (b : value) : request :=
  Request no_query (signed_with signature) None b.

Definition get_request (q : string -> value) : request :=
  Request q no_headers None (Data (JObj [])).

(** The platform writes a solidus in its JSON text with a backslash before
    it, which [JSON.stringify] does not. *)
Fixpoint escape_solidus (text : string) : string :=
  match text with
  | String c rest =>
      if (nat_of_ascii c =? 47)%nat
      then Text.backslash ++ String c (escape_solidus rest)
      else String c (escape_solidus rest)
  | EmptyString => EmptyString
  end.

(** The text with the byte at position [n] replaced. *)
Fixpoint set_byte (n : nat) (c : ascii) (text : string) : string :=
  match text, n with
  | String _ rest, O => String c rest
  | String c' rest, S n' => String c' (set_byte n' c rest)
  | EmptyString, _ => EmptyString
  end.

(** A page webhook with a link in its message, as [JSON.stringify] writes
    it and as the platform does. *)
Definition link_body : value :=
  page [entry_of [text_message "4242" "see https://example.com/help"]].

Definition link_text_stringified : string :=
  match JSON_stringify link_body with
  | Some text => text
  | None => EmptyString
  end.

Definition link_text_on_the_wire : string := escape_solidus link_text_stringified.

(** A page webhook with a control character (U+001F) in its message, and
    its text with one byte altered: the last digit of the escape in upper
    case. *)
Definition control_body : value :=
  page [entry_of [text_message "4242" ("a" ++ Text.chr 31 ++ "b")]].

Definition control_text : string :=
  match JSON_stringify control_body with
  | Some text => text
  | None => EmptyString
  end.

Definition control_text_altered : string := set_byte 159 "F"%char control_text.

(** A JSON message to [POST /webhook] with a signature header. *)
Definition post_message (signature content : string) : http_message :=
  HttpMessage "POST" "/webhook" no_query (signed_with signature) (Some content).

(** The application with the services up, run on a message from an empty
    trace. *)
Definition served (m : http_message) : option (result response * trace) :=
  match serve cfg services_up JsonText.express_json_parse
          "2024-01-01T00:00:00.000Z" None m with
  | Some answer => Some (answer [])
  | None => None
  end.

End Samples.

(** ** Start-up, lines 261-273 *)


(** [process.env.NODE_ENV || 'development']. *)
Definition environment_name (node_env : option string) : string :=
  match node_env with
  | Some e => if String.eqb e EmptyString then "development" else e
  | None => "development"
  end.




(** ** More vocabulary *)

(** The names of the properties of [Object.prototype]. *)
Definition Object_prototype_names : list string :=
  [ "__proto__"; "constructor"; "hasOwnProperty"; "isPrototypeOf";
    "propertyIsEnumerable"; "toLocaleString"; "toString"; "valueOf";
    "__defineGetter__"; "__defineSetter__"; "__lookupGetter__"; "__lookupSetter__" ].

(** A postback event: the identifiers can be read, the sender's has the
    rendering [s], there is no truthy message, and the postback carries a
    payload with the rendering [key]. *)
Definition postback_event (event sid : value) (s : string) (payload : value) (key : string) : Prop :=
  sender_id event = Ok sid
  /\ (exists rid, recipient_id_of event = Ok rid)
  /\ to_string sid = Ok s
  /\ (exists m, get event f_message = Ok m /\ truthy m = false)
  /\ (exists pb, get event f_postback = Ok pb /\ truthy pb = true
                 /\ get pb f_payload = Ok payload)
  /\ to_string payload = Ok key.

(** The prompts handed to the generative API, in order. *)
Definition prompts_of (t : trace) : list string :=
  flat_map (fun e => match e with GenerateContent p => [p] | _ => [] end) t.

(** Whether one of the three routes takes a message. *)
Definition some_route_matches (m : http_message) : bool :=
  (method_matches "GET" (http_method m) && path_matches "/webhook" (http_path m))
  || (method_matches "POST" (http_method m) && path_matches "/webhook" (http_path m))
  || (method_matches "GET" (http_method m) && path_matches "/health" (http_path m)).

(** The content of a message, if it has any, is taken by the body parser. *)
Definition content_parses (parse_body : string -> option value) (m : http_message) : Prop :=
  match http_content m with
  | Some raw => exists b, parse_body raw = Some b
  | None => True
  end.

Definition not_found_answer : response :=
  Response 404 (Data (JObj [("error", JStr "Endpoint not found")])).

Definition server_error_answer : response :=
  Response 500 (Data (JObj [("error", JStr "Internal server error")])).

Module MoreSamples.

(** A delivery receipt: neither a message nor a postback. *)
Definition delivery_receipt (sender : string) : json :=
  JObj [ ("sender", Samples.party sender); ("recipient", Samples.party "page");
         ("delivery", JObj [("watermark", JNum "1700000000000")]) ].

(** A message with an empty text. *)
Definition empty_text_message (sender : string) : json :=
  JObj [ ("sender", Samples.party sender); ("recipient", Samples.party "page");
         ("message", JObj [("mid", JStr "m4"); ("text", JStr EmptyString)]) ].

(** An event without a sender. *)
Definition anonymous_message (text : string) : json :=
  JObj [ ("recipient", Samples.party "page");
         ("message", JObj [("mid", JStr "m5"); ("text", JStr text)]) ].

(** A text message that also carries a postback. *)
Definition message_with_postback (sender text payload : string) : json :=
  JObj [ ("sender", Samples.party sender); ("recipient", Samples.party "page");
         ("message", JObj [("mid", JStr "m1"); ("text", JStr text)]);
         ("postback", JObj [("payload", JStr payload)]) ].

(** A webhook of another kind of object. *)
Definition user_webhook : value :=
  Data (JObj [ ("object", JStr "user");
               ("entry", JArr [Samples.entry_of [Samples.text_message "4242" "Hi"]]) ]).

Definition no_secret : config :=
  Config (Some "gemini-key") (Some "verify-me") (Some "page-token") None.

(** The messaging API answers 202. *)
Definition services_accepting : world :=
  World (fun _ _ => inl "  Hello!  ") (fun _ _ _ => inl 202).

Definition message_of (method path : string) (content : option string) : http_message :=
  HttpMessage method path Samples.no_query Samples.no_headers content.

Definition now : string := "2024-01-01T00:00:00.000Z".

End MoreSamples.

(** * Properties *)

(** ** Known answers for the hash

    The first and the last round constant and the first word of the initial
    hash value as FIPS 180-4 prints them, its vectors for one and two
    blocks, and a keyed one. *)

Example derived_constants :
  hd 0 Crypto.K = 0x428a2f98 /\ last Crypto.K 0 = 0xc67178f2
  /\ List.length Crypto.K = 64%nat
  /\ Crypto.H0 = Crypto.Regs 0x6a09e667 0xbb67ae85 0x3c6ef372 0xa54ff53a
                             0x510e527f 0x9b05688c 0x1f83d9ab 0x5be0cd19.
Proof. vm_compute. auto. Qed.

Example sha256_abc :
  Text.hex_of_bytes (Crypto.sha256 (Text.bytes_of_string "abc"))
  = "ba7816bf8f01cfea414140de5dae2223b00361a396177a9cb410ff61f20015ad".
Proof. vm_compute. reflexivity. Qed.

Example sha256_two_blocks :
  Text.hex_of_bytes (Crypto.sha256 (Text.bytes_of_string
    "abcdbcdecdefdefgefghfghighijhijkijkljklmklmnlmnomnopnopq"))
  = "248d6a61d20638b8e5c026930c3e6039a33ce45964ff2167f6ecedd419db06c1".
Proof. vm_compute. reflexivity. Qed.

Example sha256_empty :
  Text.hex_of_bytes (Crypto.sha256 [])
  = "e3b0c44298fc1c149afbf4c8996fb92427ae41e4649b934ca495991b7852b855".
Proof. vm_compute. reflexivity. Qed.

(** RFC 4231, test case 6: a key longer than a block is hashed first. *)
Example hmac_sha256_long_key :
  Text.hex_of_bytes
    (Crypto.hmac_sha256 (repeat 0xaa 131)
       (Text.bytes_of_string "Test Using Larger Than Block-Size Key - Hash Key First"))
  = "60e431591ee0b67f0d8a26aacbf5b77f8e0bc6213728c5140546040f0ee37f54".
Proof. vm_compute. reflexivity. Qed.

Example hmac_sha256_fox :
  Crypto.hmac_sha256_hex "key" "The quick brown fox jumps over the lazy dog"
  = "f7bc83f430538424b13298e6aa6fb143ef4d59a14946175997479dbc2d1a3cd8".
Proof. vm_compute. reflexivity. Qed.

(** ** Running computations *)

Lemma bind_ok {A B : Type} (m : M A) (k : A -> M B) (t t' : trace) (a : A) :
  m t = (Ok a, t') -> bind m k t = k a t'.
Proof. intros H. unfold bind. rewrite H. reflexivity. Qed.

Lemma bind_throw {A B : Type} (m : M A) (k : A -> M B) (t t' : trace) (e : error) :
  m t = (Throw e, t') -> bind m k t = (Throw e, t').
Proof. intros H. unfold bind. rewrite H. reflexivity. Qed.

Lemma bind_lift_ok {A B : Type} (r : result A) (k : A -> M B) (t : trace) (a : A) :
  r = Ok a -> bind (lift r) k t = k a t.
Proof. intros ->. reflexivity. Qed.

Lemma bind_lift_throw {A B : Type} (r : result A) (k : A -> M B) (t : trace) (e : error) :
  r = Throw e -> bind (lift r) k t = (Throw e, t).
Proof. intros ->. reflexivity. Qed.

Lemma bind_emit {B : Type} (e : effect) (k : unit -> M B) (t : trace) :
  bind (emit e) k t = k tt (t ++ [e])%list.
Proof. reflexivity. Qed.

Lemma try_catch_ok {A : Type} (m : M A) (h : error -> M A) (t t' : trace) (a : A) :
  m t = (Ok a, t') -> try_catch m h t = (Ok a, t').
Proof. intros H. unfold try_catch. rewrite H. reflexivity. Qed.

Lemma try_catch_throw {A : Type} (m : M A) (h : error -> M A) (t t' : trace) (e : error) :
  m t = (Throw e, t') -> try_catch m h t = h e t'.
Proof. intros H. unfold try_catch. rewrite H. reflexivity. Qed.

(** A loop over two lists in a row is the two loops in a row. *)
Lemma for_of_app {A : Type} (l1 l2 : list A) (body : A -> M unit) (t : trace) :
  for_of (l1 ++ l2) body t = bind (for_of l1 body) (fun _ => for_of l2 body) t.
Proof.
  revert t. induction l1 as [| x l1 IH]; intros t.
  - reflexivity.
  - simpl. cbv [bind]. destruct (body x t) as [[[] | e] t']; [| reflexivity].
    rewrite IH. reflexivity.
Qed.

(** ** Computations only ever extend the trace *)

Lemma extends_ret {A : Type} (a : A) : extends (ret a).
Proof. intros t. exists []. simpl. now rewrite app_nil_r. Qed.

Lemma extends_lift {A : Type} (r : result A) : extends (lift r).
Proof. intros t. exists []. simpl. now rewrite app_nil_r. Qed.

Lemma extends_emit (e : effect) : extends (emit e).
Proof. intros t. exists [e]. reflexivity. Qed.

Lemma extends_bind {A B : Type} (m : M A) (k : A -> M B) :
  extends m -> (forall a, extends (k a)) -> extends (bind m k).
Proof.
  intros Hm Hk t. unfold bind. destruct (Hm t) as [d Hd].
  destruct (m t) as [[a | e] t']; simpl in Hd; subst t'.
  - destruct (Hk a (t ++ d)%list) as [d' Hd']. exists (d ++ d')%list.
    rewrite Hd'. now rewrite app_assoc.
  - exists d. reflexivity.
Qed.

Lemma extends_try_catch {A : Type} (m : M A) (h : error -> M A) :
  extends m -> (forall e, extends (h e)) -> extends (try_catch m h).
Proof.
  intros Hm Hh t. unfold try_catch. destruct (Hm t) as [d Hd].
  destruct (m t) as [[a | e] t']; simpl in Hd; subst t'.
  - exists d. reflexivity.
  - destruct (Hh e (t ++ d)%list) as [d' Hd']. exists (d ++ d')%list.
    rewrite Hd'. now rewrite app_assoc.
Qed.

Lemma extends_for_of {A : Type} (l : list A) (body : A -> M unit) :
  (forall x, extends (body x)) -> extends (for_of l body).
Proof.
  intros Hb. induction l as [| x l IH]; simpl.
  - apply extends_ret.
  - apply extends_bind; [apply Hb | intros _; exact IH].
Qed.

Lemma extends_if {A : Type} (b : bool) (m1 m2 : M A) :
  extends m1 -> extends m2 -> extends (if b then m1 else m2).
Proof. destruct b; auto. Qed.

Create HintDb extends_db.
#[export] Hint Resolve extends_ret extends_lift extends_emit extends_try_catch
  extends_for_of extends_if : extends_db.
#[export] Hint Extern 3 (extends (bind _ _)) =>
  apply extends_bind; [ | intros ? ] : extends_db.

Section ServerFacts.

Variable cfg : config.
Variable w : world.

Lemma extends_generateContent (prompt : string) : extends (generateContent w prompt).
Proof. intros t. exists [GenerateContent prompt]. reflexivity. Qed.

Lemma extends_axios_post (url : string) (p : send_payload) : extends (axios_post w url p).
Proof. intros t. exists [AxiosPost url p]. reflexivity. Qed.

Hint Resolve extends_generateContent extends_axios_post : extends_db.

Lemma extends_sendMessageToFacebook (rid txt : value) :
  extends (sendMessageToFacebook cfg w rid txt).
Proof.
  unfold sendMessageToFacebook, logger_success, logger_error.
  auto 10 with extends_db.
Qed.

Lemma extends_generateResponseWithGemini (um : value) :
  extends (generateResponseWithGemini w um).
Proof.
  unfold generateResponseWithGemini, logger_success, logger_error.
  auto 10 with extends_db.
Qed.

Hint Resolve extends_sendMessageToFacebook extends_generateResponseWithGemini : extends_db.

Lemma extends_handlePostback (sid p : value) : extends (handlePostback cfg w sid p).
Proof.
  unfold handlePostback, logger_info. auto 10 with extends_db.
Qed.

Hint Resolve extends_handlePostback : extends_db.

Lemma extends_processMessage (ev : value) : extends (processMessage cfg w ev).
Proof.
  unfold processMessage, logger_info. auto 20 with extends_db.
Qed.

Lemma extends_handle_event (ev : value) : extends (handle_event cfg w ev).
Proof.
  unfold handle_event, logger_error.
  apply extends_try_catch; [apply extends_processMessage | auto with extends_db].
Qed.

End ServerFacts.

(** ** The verification handshake, [GET /webhook] *)

Lemma equals_verify_token_spec (cfg : config) (v : value) :
  equals_verify_token cfg v = true <-> v = verify_token_value cfg.
Proof.
  unfold equals_verify_token, verify_token_value, Str.
  destruct v as [| j | n]; destruct (FACEBOOK_VERIFY_TOKEN cfg) as [tok |];
    try destruct j; split; intros H; try discriminate H; try reflexivity.
  - apply String.eqb_eq in H. now subst.
  - injection H as ->. apply String.eqb_refl.
Qed.

(** C7.  [GET /webhook] answers 200 with the value of [hub.challenge] as it
    came when the [hub.verify_token] parameter is the configured verify
    token, and 403 when it is not. *)
Theorem get_webhook_verifies (cfg : config) (req : request) (t : trace) :
  (query req "hub.verify_token" = verify_token_value cfg ->
   get_webhook cfg req t
   = (Ok (Response 200 (query req "hub.challenge")),
      (t ++ [Log SUCCESS "Webhook verified successfully"])%list))
  /\
  (query req "hub.verify_token" <> verify_token_value cfg ->
   get_webhook cfg req t
   = (Ok (Response 403 (Str "Invalid verification token")),
      (t ++ [Log ERROR "Webhook verification failed"])%list)).
Proof.
  unfold get_webhook. split; intros H.
  - apply equals_verify_token_spec in H. rewrite H. reflexivity.
  - destruct (equals_verify_token cfg (query req "hub.verify_token")) eqn:E.
    + apply equals_verify_token_spec in E. contradiction.
    + reflexivity.
Qed.

Lemma get_webhook_verifies_witness :
  fst (get_webhook Samples.cfg
         (Samples.get_request (Samples.query_of "verify-me" "1158201444")) [])
  = Ok (Response 200 (Str "1158201444"))
  /\
  fst (get_webhook Samples.cfg
         (Samples.get_request (Samples.query_of "guess" "1158201444")) [])
  = Ok (Response 403 (Str "Invalid verification token")).
Proof.
  split.
  - rewrite (proj1 (get_webhook_verifies Samples.cfg
               (Samples.get_request (Samples.query_of "verify-me" "1158201444")) [])).
    + reflexivity.
    + reflexivity.
  - rewrite (proj2 (get_webhook_verifies Samples.cfg
               (Samples.get_request (Samples.query_of "guess" "1158201444")) [])).
    + reflexivity.
    + vm_compute. intros H. discriminate H.
Defined.

(** C9.  With no verify token configured, a [GET /webhook] request without
    the [hub.verify_token] parameter is answered 200: [undefined] is
    strictly equal to [undefined]. *)
Theorem unset_token_accepts_absent_parameter (cfg : config) (req : request) (t : trace) :
  FACEBOOK_VERIFY_TOKEN cfg = None ->
  query req "hub.verify_token" = Undefined ->
  get_webhook cfg req t
  = (Ok (Response 200 (query req "hub.challenge")),
     (t ++ [Log SUCCESS "Webhook verified successfully"])%list).
Proof.
  intros Hcfg Hq. unfold get_webhook, equals_verify_token.
  rewrite Hq, Hcfg. reflexivity.
Qed.

Lemma unset_token_accepts_absent_parameter_witness :
  fst (get_webhook (Config None None None None)
         (Samples.get_request Samples.no_query) [])
  = Ok (Response 200 Undefined).
Proof.
  rewrite (unset_token_accepts_absent_parameter (Config None None None None)
             (Samples.get_request Samples.no_query) []).
  - reflexivity.
  - reflexivity.
  - reflexivity.
Defined.

(** ** Outbound delivery *)

Lemma posts_of_app (t1 t2 : trace) :
  posts_of (t1 ++ t2)%list = (posts_of t1 ++ posts_of t2)%list.
Proof. unfold posts_of. apply flat_map_app. Qed.

Lemma posts_of_logs (logs : trace) :
  forallb is_log logs = true -> posts_of logs = [].
Proof.
  induction logs as [| e logs IH]; [reflexivity |].
  cbn [forallb]. intros H. apply andb_prop in H as [He Hl].
  destruct e; try discriminate He. simpl. apply IH, Hl.
Qed.

(** What [sendMessageToFacebook] does, for every recipient, text, service
    and history: one call to the messaging API, then log lines only, and it
    completes normally. *)
Lemma sendMessageToFacebook_run
    (cfg : config) (w : world) (recipientId messageText : value) (t : trace) :
  exists logs,
    sendMessageToFacebook cfg w recipientId messageText t
    = (Ok tt, (t ++ send_of cfg recipientId messageText :: logs)%list)
    /\ forallb is_log logs = true
    /\ match messaging_api w t messages_url
               (SendPayload recipientId messageText (FACEBOOK_PAGE_ACCESS_TOKEN cfg)) with
       | inr e =>
           logs = [Log ERROR ("Failed to send message to Facebook: " ++ err_message e)]
       | inl _ => True
       end.
Proof.
  unfold sendMessageToFacebook, send_of, try_catch, bind, axios_post, lift,
    logger_success, logger_error, emit, ret.
  destruct (messaging_api w t messages_url _) as [st | e].
  - destruct (st =? 200).
    + destruct (to_string recipientId) as [r | e'];
        eexists; rewrite <- app_assoc; repeat split; reflexivity.
    + exists []. repeat split; reflexivity.
  - eexists. rewrite <- app_assoc. repeat split; reflexivity.
Qed.

(** C8.  [sendMessageToFacebook] never propagates an error: for every
    recipient, text, service and history it completes normally.  It calls
    the messaging API exactly once; whatever else it does is logging, and
    when the call fails, the failure is logged and nothing more happens: no
    second attempt. *)
Theorem sendMessageToFacebook_swallows
    (cfg : config) (w : world) (recipientId messageText : value) (t : trace) :
  exists logs,
    sendMessageToFacebook cfg w recipientId messageText t
    = (Ok tt, (t ++ send_of cfg recipientId messageText :: logs)%list)
    /\ forallb is_log logs = true
    /\ posts_of (snd (sendMessageToFacebook cfg w recipientId messageText t))
       = (posts_of t
          ++ [SendPayload recipientId messageText (FACEBOOK_PAGE_ACCESS_TOKEN cfg)])%list
    /\ match messaging_api w t messages_url
               (SendPayload recipientId messageText (FACEBOOK_PAGE_ACCESS_TOKEN cfg)) with
       | inr e =>
           logs = [Log ERROR ("Failed to send message to Facebook: " ++ err_message e)]
       | inl _ => True
       end.
Proof.
  destruct (sendMessageToFacebook_run cfg w recipientId messageText t)
    as (logs & Hrun & Hlogs & Hfail).
  exists logs. repeat split; try assumption.
  rewrite Hrun. cbn [snd].
  change (send_of cfg recipientId messageText :: logs)
    with ([send_of cfg recipientId messageText] ++ logs)%list.
  rewrite !posts_of_app, (posts_of_logs logs Hlogs). reflexivity.
Qed.

(** ** Dispatch of one event *)

(** C10.  An event whose message is an object without a [text] property is
    ignored: [processMessage] completes normally and leaves the trace as it
    was, so that it neither calls the generative API nor posts a message.
    Whether the event has a postback is of no account, the message being
    looked at first. *)
Theorem message_without_text_ignored
    (cfg : config) (w : world) (event sid rid : value)
    (m : list (string * json)) (t : trace) :
  sender_id event = Ok sid ->
  recipient_id_of event = Ok rid ->
  get event f_message = Ok (Data (JObj m)) ->
  assoc "text" m = None ->
  processMessage cfg w event t = (Ok tt, t).
Proof.
  intros Hs Hr Hm Ht. unfold processMessage.
  unfold sender_id in Hs. unfold recipient_id_of in Hr.
  rewrite (bind_lift_ok _ _ _ _ Hs), (bind_lift_ok _ _ _ _ Hr), (bind_lift_ok _ _ _ _ Hm).
  simpl. rewrite Ht. reflexivity.
Qed.

Lemma message_without_text_ignored_witness :
  processMessage Samples.cfg Samples.services_up
    (Data (Samples.attachment_message "4242")) []
  = (Ok tt, []).
Proof.
  apply (message_without_text_ignored Samples.cfg Samples.services_up
           (Data (Samples.attachment_message "4242")) (Str "4242") (Str "page")
           [ ("mid", JStr "m3");
             ("attachments", JArr [JObj [("type", JStr "image")]]) ]).
  - reflexivity.
  - reflexivity.
  - reflexivity.
  - reflexivity.
Defined.

(** ** Reply generation *)

Section Generation.

Variable cfg : config.
Variable w : world.

(** [generateResponseWithGemini] never throws. *)
Lemma generateResponseWithGemini_total (userMessage : value) (t : trace) :
  exists reply d,
    generateResponseWithGemini w userMessage t = (Ok reply, (t ++ d)%list).
Proof.
  unfold generateResponseWithGemini, try_catch, bind, lift, generateContent,
    logger_success, logger_error, emit, ret.
  destruct (to_string userMessage) as [u | e].
  - destruct (generative_api w t (prompt_of u)) as [text | e];
      eexists; eexists; rewrite <- app_assoc; reflexivity.
  - eexists; eexists; reflexivity.
Qed.

(** When the call fails, the reply is the apology. *)
Lemma generateResponseWithGemini_failure
    (userMessage : value) (u : string) (e : error) (t : trace) :
  to_string userMessage = Ok u ->
  generative_api w t (prompt_of u) = inr e ->
  generateResponseWithGemini w userMessage t
  = (Ok apology,
     (t ++ [ GenerateContent (prompt_of u);
             Log ERROR ("Error calling Gemini API: " ++ err_message e) ])%list).
Proof.
  intros Hu He.
  unfold generateResponseWithGemini, try_catch, bind, lift, generateContent,
    logger_error, emit, ret.
  rewrite Hu, He. rewrite <- app_assoc. reflexivity.
Qed.

(** A property that reads as data was read off an object. *)
Lemma get_data_object (v : value) (f : field) (j : json) :
  get v f = Ok (Data j) -> exists props, v = Data (JObj props).
Proof.
  destruct v as [| [] |]; simpl; intros H; try discriminate H.
  eexists; reflexivity.
Qed.

(** A text-message event whose generation fails: the event is logged, the
    API is called once, its failure is logged, and the apology is posted to
    the sender. *)
Lemma processMessage_apology
    (event sid : value) (s u : string) (t : trace) :
  text_event event sid s u ->
  generation_fails w (prompt_of u) ->
  exists e logs,
    processMessage cfg w event t
    = (Ok tt,
       (t ++ [ Log INFO ("Message from " ++ s ++ ": " ++ u);
               GenerateContent (prompt_of u);
               Log ERROR ("Error calling Gemini API: " ++ err_message e);
               send_of cfg sid (Str apology) ] ++ logs)%list)
    /\ forallb is_log logs = true.
Proof.
  intros (Hs & [rid Hr] & Hsid & Hm & Hu) Hfail.
  destruct (get event f_message) as [m | e0] eqn:Hmsg; [| discriminate Hm].
  simpl in Hm. destruct (get_data_object _ _ _ Hm) as [props ->].
  set (t1 := (t ++ [Log INFO ("Message from " ++ s ++ ": " ++ u)])%list).
  destruct (Hfail t1) as [e He]. exists e.
  pose proof (generateResponseWithGemini_failure (Str u) u e t1 eq_refl He) as Hg.
  destruct (sendMessageToFacebook_run cfg w sid (Str apology)
              (t1 ++ [ GenerateContent (prompt_of u);
                       Log ERROR ("Error calling Gemini API: " ++ err_message e) ])%list)
    as (logs & Hsend & Hlogs & _).
  exists logs. split; [| exact Hlogs].
  unfold processMessage. unfold sender_id in Hs. unfold recipient_id_of in Hr.
  rewrite (bind_lift_ok _ _ _ _ Hs), (bind_lift_ok _ _ _ _ Hr), (bind_lift_ok _ _ _ _ Hmsg).
  cbn [truthy]. rewrite (bind_lift_ok _ _ _ _ Hm).
  assert (Htr : truthy (Str u) = true).
  { simpl. destruct (String.eqb u EmptyString) eqn:E; [| reflexivity].
    apply String.eqb_eq in E. contradiction. }
  rewrite Htr. rewrite (bind_lift_ok _ _ _ _ Hsid).
  rewrite (bind_lift_ok (to_string (Str u)) _ _ u eq_refl).
  unfold logger_info. rewrite bind_emit. fold t1.
  rewrite (bind_ok _ _ _ _ _ Hg). rewrite Hsend. unfold t1.
  repeat rewrite <- app_assoc. reflexivity.
Qed.

End Generation.

(** ** The event loop of [POST /webhook] *)

Section Loop.

Variable cfg : config.
Variable w : world.

(** Whatever happens to one event, its handling completes normally. *)
Lemma handle_event_ok (event : value) (t : trace) :
  fst (handle_event cfg w event t) = Ok tt.
Proof.
  unfold handle_event, try_catch.
  destruct (processMessage cfg w event t) as [[[] | e] t']; reflexivity.
Qed.

Lemma for_of_handle_event_ok (events : list value) (t : trace) :
  fst (for_of events (handle_event cfg w) t) = Ok tt.
Proof.
  revert t. induction events as [| ev events IH]; intros t; simpl.
  - reflexivity.
  - unfold bind. pose proof (handle_event_ok ev t) as H.
    destruct (handle_event cfg w ev t) as [[[] | e] t']; simpl in H.
    + apply IH.
    + discriminate H.
Qed.

(** The two nested loops run the events of all entries in order. *)
Lemma entries_loop (entries : list value) (ess : list (list value)) (t : trace) :
  Forall2 (fun entry es =>
             rbind (get entry f_messaging) (iterate "entry.messaging") = Ok es)
          entries ess ->
  for_of entries
    (fun entry =>
       events <- lift (rbind (get entry f_messaging) (iterate "entry.messaging")) ;;
       for_of events (handle_event cfg w)) t
  = for_of (List.concat ess) (handle_event cfg w) t.
Proof.
  intros H. revert t. induction H as [| entry es entries ess Hes _ IH]; intros t.
  - reflexivity.
  - simpl. rewrite for_of_app. unfold bind at 1. rewrite (bind_lift_ok _ _ _ _ Hes).
    unfold bind at 2. destruct (for_of es (handle_event cfg w) t) as [[[] | e] t'].
    + apply IH.
    + reflexivity.
Qed.

(** A verified page webhook whose entries can be iterated is answered
    200 OK after every event of every entry has been handled, in order. *)
Lemma post_webhook_page (req : request) (ess : list (list value)) (t : trace) :
  verifyRequestSignature cfg req = Ok true ->
  page_entries (body req) ess ->
  post_webhook cfg w req t
  = (Ok (Response 200 (Str "OK")),
     snd (for_of (List.concat ess) (handle_event cfg w)
            (t ++ [received_line (body req)])%list)).
Proof.
  intros Hv ((o & Ho & Hpage) & entries & Hentries & Hall).
  unfold post_webhook. rewrite (bind_lift_ok _ _ _ _ Hv). cbn [negb].
  unfold logger_info. rewrite bind_emit. fold (received_line (body req)).
  rewrite (bind_lift_ok _ _ _ _ Ho). rewrite Hpage.
  unfold bind at 1. rewrite (bind_lift_ok _ _ _ _ Hentries).
  rewrite (entries_loop _ _ _ Hall).
  pose proof (for_of_handle_event_ok (List.concat ess)
                (t ++ [received_line (body req)])%list) as Hok.
  destruct (for_of (List.concat ess) (handle_event cfg w) _) as [[[] | e] t'];
    simpl in Hok; [reflexivity | discriminate Hok].
Qed.

(** What the handling of one event adds to the trace is in the trace of
    the whole loop. *)
Lemma for_of_handle_event_in (events : list value) (event : value) (e : effect) :
  In event events ->
  (forall t0, exists d,
      snd (handle_event cfg w event t0) = (t0 ++ d)%list /\ In e d) ->
  forall t, exists d,
      snd (for_of events (handle_event cfg w) t) = (t ++ d)%list /\ In e d.
Proof.
  intros Hin He. induction events as [| x events IH]; [contradiction |].
  intros t. simpl. unfold bind.
  pose proof (handle_event_ok x t) as Hok.
  destruct (extends_handle_event cfg w x t) as [d0 Hd0].
  destruct (handle_event cfg w x t) as [[[] | err] t'] eqn:Hx;
    simpl in Hok, Hd0; [| discriminate Hok]. subst t'.
  destruct Hin as [-> | Hin].
  - destruct (He t) as (d & Hd & Hind). rewrite Hx in Hd. simpl in Hd.
    apply app_inv_head in Hd. subst d0.
    destruct (extends_for_of events (handle_event cfg w)
                (extends_handle_event cfg w) (t ++ d)%list) as [d1 Hd1].
    exists (d ++ d1)%list. rewrite Hd1, <- app_assoc. split; [reflexivity |].
    apply in_or_app. now left.
  - destruct (IH Hin (t ++ d0)%list) as (d1 & Hd1 & Hind).
    exists (d0 ++ d1)%list. rewrite Hd1, <- app_assoc. split; [reflexivity |].
    apply in_or_app. now right.
Qed.

(** C5.  The generation function never throws.  For a text-message event
    on which the generative API fails, what [processMessage] does is: log
    the message, call the API once, log its failure, and post the apology to
    the sender.  The endpoint answers a verified page webhook that holds
    such an event with 200 OK, and the apology for the sender is among the
    messages it has posted. *)
Theorem generation_failure_apology
    (req : request) (ess : list (list value)) (event sid : value)
    (s u : string) (t : trace) :
  verifyRequestSignature cfg req = Ok true ->
  page_entries (body req) ess ->
  In event (List.concat ess) ->
  text_event event sid s u ->
  generation_fails w (prompt_of u) ->
  (forall userMessage t0, exists reply d,
      generateResponseWithGemini w userMessage t0 = (Ok reply, (t0 ++ d)%list))
  /\
  (forall t0, exists e logs,
      processMessage cfg w event t0
      = (Ok tt,
         (t0 ++ [ Log INFO ("Message from " ++ s ++ ": " ++ u);
                  GenerateContent (prompt_of u);
                  Log ERROR ("Error calling Gemini API: " ++ err_message e);
                  send_of cfg sid (Str apology) ] ++ logs)%list)
      /\ forallb is_log logs = true)
  /\
  (exists d,
      post_webhook cfg w req t = (Ok (Response 200 (Str "OK")), (t ++ d)%list)
      /\ In (send_of cfg sid (Str apology)) d).
Proof.
  intros Hv Hpage Hin Hev Hfail. split; [| split].
  - intros um t0. apply generateResponseWithGemini_total.
  - intros t0. apply (processMessage_apology cfg w event sid s u t0 Hev Hfail).
  - rewrite (post_webhook_page req ess t Hv Hpage).
    destruct (for_of_handle_event_in (List.concat ess) event
                (send_of cfg sid (Str apology)) Hin) with
      (t := (t ++ [received_line (body req)])%list) as (d & Hd & Hind).
    + intros t0.
      destruct (processMessage_apology cfg w event sid s u t0 Hev Hfail)
        as (e & logs & Hp & _).
      eexists. unfold handle_event. rewrite (try_catch_ok _ _ _ _ _ Hp).
      split; [reflexivity |]. simpl. auto.
    + exists (received_line (body req) :: d). rewrite Hd, <- app_assoc.
      split; [reflexivity |]. now right.
Qed.

End Loop.

Lemma generation_failure_apology_witness :
  exists d,
    post_webhook Samples.cfg Samples.services_down
      (Samples.post_request
         (Samples.accepted_signature
            (Samples.page [Samples.entry_of [Samples.text_message "4242" "Hi"]]))
         (Samples.page [Samples.entry_of [Samples.text_message "4242" "Hi"]])) []
    = (Ok (Response 200 (Str "OK")), d)
    /\ In (send_of Samples.cfg (Str "4242") (Str apology)) d.
Proof.
  destruct (generation_failure_apology Samples.cfg Samples.services_down
              (Samples.post_request
                 (Samples.accepted_signature
                    (Samples.page [Samples.entry_of [Samples.text_message "4242" "Hi"]]))
                 (Samples.page [Samples.entry_of [Samples.text_message "4242" "Hi"]]))
              [[Data (Samples.text_message "4242" "Hi")]]
              (Data (Samples.text_message "4242" "Hi")) (Str "4242") "4242" "Hi" [])
    as (_ & _ & d & Hd & Hin).
  - vm_compute. reflexivity.
  - split.
    + exists (Str "page"). split; reflexivity.
    + exists [Data (Samples.entry_of [Samples.text_message "4242" "Hi"])].
      split; [reflexivity |]. constructor; [reflexivity | constructor].
  - simpl. left. reflexivity.
  - repeat split; try reflexivity.
    + exists (Str "page"). reflexivity.
    + intros H. discriminate H.
  - intros h. eexists. reflexivity.
  - exists d. split; [exact Hd | exact Hin].
Defined.

(** ** The signature check *)

Lemma hex_digit_length (d : Z) : String.length (Text.hex_digit d) = 1%nat.
Proof.
  unfold Text.hex_digit.
  destruct d as [| p | p]; try reflexivity.
  do 4 (destruct p as [p | p |]; try reflexivity).
Qed.

Lemma string_length_app (a b : string) :
  String.length (a ++ b) = (String.length a + String.length b)%nat.
Proof. induction a as [| c a IH]; simpl; [reflexivity | now rewrite IH]. Qed.

Lemma hex_of_bytes_length (bs : list Z) :
  String.length (Text.hex_of_bytes bs) = (2 * List.length bs)%nat.
Proof.
  induction bs as [| b bs IH]; [reflexivity |].
  cbn [Text.hex_of_bytes fold_right]. fold (Text.hex_of_bytes bs).
  unfold Text.hex_byte. rewrite !string_length_app, !hex_digit_length, IH.
  simpl List.length. lia.
Qed.

(** The expected signature is 71 bytes long: the prefix and 64 digits. *)
Lemma expected_signature_length (secret data : string) :
  String.length ("sha256=" ++ Crypto.hmac_sha256_hex secret data) = 71%nat.
Proof.
  rewrite string_length_app. unfold Crypto.hmac_sha256_hex.
  rewrite hex_of_bytes_length. unfold Crypto.hmac_sha256.
  unfold Crypto.sha256 at 1. reflexivity.
Qed.

Section Signature.

Variable cfg : config.
Variable w : world.

(** Without the header, or with an empty one, the request is refused. *)
Lemma post_webhook_without_signature (req : request) (t : trace) :
  headers req "x-hub-signature-256" = None
  \/ headers req "x-hub-signature-256" = Some EmptyString ->
  post_webhook cfg w req t
  = (Ok (Response 403 (Str "Unauthorized")),
     (t ++ [Log ERROR "Invalid request signature"])%list).
Proof.
  intros [H | H]; unfold post_webhook, verifyRequestSignature; rewrite H; reflexivity.
Qed.

(** What the check computes when no raw body has been stored: the keyed
    hash of the body serialized anew. *)
Lemma verifyRequestSignature_reserializes
    (req : request) (signature secret text : string) :
  rawBody req = None ->
  headers req "x-hub-signature-256" = Some signature ->
  signature <> EmptyString ->
  FACEBOOK_APP_SECRET cfg = Some secret ->
  JSON_stringify (body req) = Some text ->
  verifyRequestSignature cfg req
  = timingSafeEqual signature ("sha256=" ++ Crypto.hmac_sha256_hex secret text).
Proof.
  intros Hraw Hh Hne Hs Hb. unfold verifyRequestSignature.
  rewrite Hh, Hraw, Hs, Hb.
  destruct (String.eqb signature EmptyString) eqn:E; [| reflexivity].
  apply String.eqb_eq in E. contradiction.
Qed.

(** A signature of the right length that is not the expected one is
    refused. *)
Lemma post_webhook_wrong_signature
    (req : request) (signature secret text : string) (t : trace) :
  rawBody req = None ->
  headers req "x-hub-signature-256" = Some signature ->
  FACEBOOK_APP_SECRET cfg = Some secret ->
  JSON_stringify (body req) = Some text ->
  String.length signature = 71%nat ->
  signature <> "sha256=" ++ Crypto.hmac_sha256_hex secret text ->
  post_webhook cfg w req t
  = (Ok (Response 403 (Str "Unauthorized")),
     (t ++ [Log ERROR "Invalid request signature"])%list).
Proof.
  intros Hraw Hh Hs Hb Hlen Hne. unfold post_webhook.
  rewrite (verifyRequestSignature_reserializes req signature secret text); auto.
  - unfold timingSafeEqual. rewrite Hlen, expected_signature_length. simpl Nat.eqb.
    destruct (String.eqb signature _) eqn:E.
    + apply String.eqb_eq in E. contradiction.
    + reflexivity.
  - intros ->. discriminate Hlen.
Qed.

(** A signature of another length makes the comparison throw: the handler
    sends nothing. *)
Lemma post_webhook_signature_of_other_length
    (req : request) (signature secret text : string) (t : trace) :
  rawBody req = None ->
  headers req "x-hub-signature-256" = Some signature ->
  FACEBOOK_APP_SECRET cfg = Some secret ->
  JSON_stringify (body req) = Some text ->
  signature <> EmptyString ->
  String.length signature <> 71%nat ->
  post_webhook cfg w req t
  = (Throw (RangeError "Input buffers must have the same byte length"), t).
Proof.
  intros Hraw Hh Hs Hb Hne Hlen. unfold post_webhook.
  rewrite (verifyRequestSignature_reserializes req signature secret text); auto.
  unfold timingSafeEqual. rewrite expected_signature_length.
  destruct (Nat.eqb (String.length signature) 71) eqn:E.
  - apply Nat.eqb_eq in E. contradiction.
  - reflexivity.
Qed.

(** With the expected signature, a body that is an object but no page
    webhook is answered 200 OK without more ado. *)
Lemma post_webhook_other_object
    (req : request) (props : list (string * json)) (secret : string) (t : trace) :
  rawBody req = None ->
  body req = Data (JObj props) ->
  FACEBOOK_APP_SECRET cfg = Some secret ->
  headers req "x-hub-signature-256"
  = Some ("sha256=" ++ Crypto.hmac_sha256_hex secret (serialize EmptyString EmptyString (JObj props))) ->
  is_string (match assoc "object" props with Some j => Data j | None => Undefined end)
            "page" = false ->
  post_webhook cfg w req t
  = (Ok (Response 200 (Str "OK")), (t ++ [received_line (body req)])%list).
Proof.
  intros Hraw Hbody Hs Hh Hobj. unfold post_webhook.
  rewrite (verifyRequestSignature_reserializes req _ secret
             (serialize EmptyString EmptyString (JObj props)) Hraw Hh); auto.
  - unfold timingSafeEqual. rewrite Nat.eqb_refl, String.eqb_refl.
    rewrite bind_lift_ok with (a := true) by reflexivity. cbn [negb].
    unfold logger_info. rewrite bind_emit. fold (received_line (body req)).
    rewrite Hbody. cbn [get field_name].
    destruct (assoc "object" props) as [j |]; cbn [bind lift]; rewrite Hobj; reflexivity.
  - discriminate.
  - rewrite Hbody. reflexivity.
Qed.

End Signature.

(** ** The raw body never reaches the check *)

Section RawBody.

Variable cfg : config.
Variable w : world.
Variable parse_body : string -> option value.
Variable now : string.
Variable node_env : option string.

(** X19.  Whichever layer answers a message, the request it is handed has
    no [rawBody]: the parser that stores it is registered behind the layers
    that answer every message. *)
Lemma rawBody_never_stored (m : http_message) (r : request) :
  handled_request parse_body (app cfg w now node_env) (incoming m) = Some r ->
  rawBody r = None.
Proof.
  unfold app, incoming. cbn [handled_request step fl_failed fl_parsed fl_msg fl_req].
  destruct (http_content m) as [raw |]; [destruct (parse_body raw) as [b |] |];
    repeat (cbn [handled_request step fl_failed fl_parsed fl_msg fl_req];
            match goal with
            | |- context [if ?c then _ else _] => destruct c
            end);
    cbn [handled_request step fl_failed fl_parsed fl_msg fl_req];
    intros H; injection H as <-; reflexivity.
Qed.

(** The layer that answers a JSON message to [POST /webhook] that parses is
    the handler, on the parsed body and no raw body. *)
Lemma serve_post_webhook (m : http_message) (raw : string) (b : value) :
  http_method m = "POST" ->
  http_path m = "/webhook" ->
  http_content m = Some raw ->
  parse_body raw = Some b ->
  serve cfg w parse_body now node_env m
  = Some (post_webhook cfg w (Request (http_query m) (http_headers m) None b)).
Proof.
  intros Hm Hp Hc Hb. unfold serve, app, incoming.
  cbn [run_layers step fl_failed fl_parsed fl_msg fl_req].
  rewrite Hc, Hb. cbn [run_layers step fl_failed fl_parsed fl_msg fl_req].
  rewrite Hm, Hp.
  replace (method_matches "GET" "POST") with false by reflexivity.
  cbn [andb run_layers step fl_failed fl_parsed fl_msg fl_req set_body
       query headers rawBody].
  rewrite Hm, Hp.
  replace (method_matches "POST" "POST") with true by reflexivity.
  replace (path_matches "/webhook" "/webhook") with true by reflexivity.
  reflexivity.
Qed.

(** Two messages to [POST /webhook] that differ in the bytes of their
    content only, and parse to the same value, are answered alike: the
    answer does not depend on the raw bytes. *)
Lemma serve_ignores_raw_bytes (m1 m2 : http_message) (raw1 raw2 : string) (b : value) :
  http_method m1 = "POST" -> http_path m1 = "/webhook" ->
  http_method m2 = "POST" -> http_path m2 = "/webhook" ->
  http_query m1 = http_query m2 ->
  http_headers m1 = http_headers m2 ->
  http_content m1 = Some raw1 -> parse_body raw1 = Some b ->
  http_content m2 = Some raw2 -> parse_body raw2 = Some b ->
  serve cfg w parse_body now node_env m1 = serve cfg w parse_body now node_env m2.
Proof.
  intros Hm1 Hp1 Hm2 Hp2 Hq Hh Hc1 Hb1 Hc2 Hb2.
  rewrite (serve_post_webhook m1 raw1 b Hm1 Hp1 Hc1 Hb1).
  rewrite (serve_post_webhook m2 raw2 b Hm2 Hp2 Hc2 Hb2).
  rewrite Hq, Hh. reflexivity.
Qed.

End RawBody.

(** C1.  The check hashes the body serialized anew, not the bytes
    received.  A page webhook whose text writes the solidus the way the
    platform does, signed over exactly those bytes with the app secret, is
    refused with 403. *)
Theorem signed_raw_body_refused :
  Samples.served
    (Samples.post_message
       (Samples.signature_of Samples.link_text_on_the_wire)
       Samples.link_text_on_the_wire)
  = Some (Ok (Response 403 (Str "Unauthorized")),
          [Log ERROR "Invalid request signature"]).
Proof. vm_compute. reflexivity. Qed.

(** The same webhook in the serialization of [JSON.stringify], signed over
    those bytes, is accepted. *)
Lemma signed_stringified_body_accepted :
  option_map fst
    (Samples.served
       (Samples.post_message
          (Samples.signature_of Samples.link_text_stringified)
          Samples.link_text_stringified))
  = Some (Ok (Response 200 (Str "OK"))).
Proof. vm_compute. reflexivity. Qed.

(** A body altered in one byte goes through with the signature of the
    original when it parses to the same value. *)
Lemma altered_body_accepted :
  Samples.control_text_altered <> Samples.control_text
  /\ option_map fst
       (Samples.served
          (Samples.post_message
             (Samples.signature_of Samples.control_text)
             Samples.control_text))
     = Some (Ok (Response 200 (Str "OK")))
  /\ option_map fst
       (Samples.served
          (Samples.post_message
             (Samples.signature_of Samples.control_text)
             Samples.control_text_altered))
     = Some (Ok (Response 200 (Str "OK"))).
Proof.
  split; [| split].
  - vm_compute. intros H. discriminate H.
  - vm_compute. reflexivity.
  - vm_compute. reflexivity.
Qed.

(** C2.  A signature header whose length is not that of the expected
    signature is not answered 403: the comparison throws, the promise of the
    handler is rejected, and nothing is sent. *)
Theorem short_signature_not_refused :
  post_webhook Samples.cfg Samples.services_up
    (Samples.post_request "sha256=abc"
       (Samples.page [Samples.entry_of [Samples.text_message "4242" "Hi"]])) []
  = (Throw (RangeError "Input buffers must have the same byte length"), []).
Proof. vm_compute. reflexivity. Qed.

(** ** Quick replies *)

(** X20.  The third branch of [processMessage] is never taken: its
    condition asks for a truthy [event.message], and the first branch has
    taken every event that has one.  So [processMessage] does on every event
    and trace what it would do without that branch. *)
Lemma quick_reply_branch_unreachable
    (cfg : config) (w : world) (event : value) (t : trace) :
  processMessage cfg w event t = processMessage_two_branches cfg w event t.
Proof.
  unfold processMessage, processMessage_two_branches, bind, lift.
  destruct (rbind (get event f_sender) _) as [sid | e]; [| reflexivity].
  destruct (rbind (get event f_recipient) _) as [rid | e]; [| reflexivity].
  destruct (get event f_message) as [m | e]; [| reflexivity].
  destruct (truthy m) eqn:Hm; [reflexivity |].
  destruct (get event f_postback) as [p | e]; [| reflexivity].
  destruct (truthy p); [reflexivity |].
  unfold ret. rewrite Hm. reflexivity.
Qed.

(** C3.  A quick reply, which comes as a message with a text and the
    payload beside it, does not take a log-only path: a reply is generated
    and posted to the sender, and the payload is logged nowhere. *)
Theorem quick_reply_is_answered :
  processMessage Samples.cfg Samples.services_up
    (Data (Samples.quick_reply_message "4242" "Red" "COLOR_RED")) []
  = (Ok tt,
     [ Log INFO "Message from 4242: Red";
       GenerateContent (prompt_of "Red");
       Log SUCCESS "Gemini response: Hello!";
       send_of Samples.cfg (Str "4242") (Str "Hello!");
       Log SUCCESS "Message sent to 4242" ]).
Proof. vm_compute. reflexivity. Qed.

(** ** Malformed entries *)

(** C4.  A verified page webhook with an entry that has no messaging list
    is not answered 200: reading the list throws outside the [try], the
    promise of the handler is rejected, and the events of the entries after
    it are not handled.  Here the first and the third entry hold a message
    each; only the first is answered. *)
Theorem entry_without_messaging_aborts :
  let body :=
    Samples.page [ Samples.entry_of [Samples.text_message "4242" "Hi"];
                   Samples.changes_entry;
                   Samples.entry_of [Samples.text_message "77" "Hello"] ] in
  let outcome :=
    post_webhook Samples.cfg Samples.services_up
      (Samples.post_request (Samples.accepted_signature body) body) [] in
  fst outcome = Throw (TypeError "entry.messaging is not iterable")
  /\ posts_of (snd outcome)
     = [SendPayload (Str "4242") (Str "Hello!") (Some "page-token")].
Proof. vm_compute. split; reflexivity. Qed.

(** An event that makes [processMessage] throw is logged, and the events
    after it are handled: here the first event has no sender. *)
Lemma malformed_event_skipped :
  let body :=
    Samples.page [ Samples.entry_of [ JObj [("message", JObj [("text", JStr "Hi")])];
                                      Samples.text_message "77" "Hello" ] ] in
  let outcome :=
    post_webhook Samples.cfg Samples.services_up
      (Samples.post_request (Samples.accepted_signature body) body) [] in
  fst outcome = Ok (Response 200 (Str "OK"))
  /\ In (Log ERROR
           "Error processing message: Cannot read properties of undefined (reading 'id')")
        (snd outcome)
  /\ posts_of (snd outcome)
     = [SendPayload (Str "77") (Str "Hello!") (Some "page-token")].
Proof.
  vm_compute. split; [reflexivity | split; [| reflexivity]].
  right. left. reflexivity.
Qed.

(** ** Postbacks *)

Section Postback.

Variable cfg : config.
Variable w : world.

(** What [handlePostback] posts for a payload with the rendering [key]. *)
Lemma handlePostback_posts (senderId payload : value) (key : string) (t : trace) :
  to_string payload = Ok key ->
  exists logs,
    handlePostback cfg w senderId payload t
    = (Ok tt,
       (t ++ [ Log INFO ("Processing postback: " ++ key);
               send_of cfg senderId
                 (if truthy (responses_get key) then responses_get key else Str fallback) ]
          ++ logs)%list)
    /\ forallb is_log logs = true.
Proof.
  intros Hk. unfold handlePostback.
  rewrite (bind_lift_ok _ _ _ _ Hk). unfold logger_info. rewrite bind_emit.
  rewrite (bind_lift_ok _ _ _ _ Hk).
  destruct (sendMessageToFacebook_run cfg w senderId
              (if truthy (responses_get key) then responses_get key else Str fallback)
              (t ++ [Log INFO ("Processing postback: " ++ key)])%list)
    as (logs & Hsend & Hlogs & _).
  exists logs. rewrite Hsend, <- app_assoc. split; [reflexivity | exact Hlogs].
Qed.

(** The payload GET_STARTED is answered with the welcome. *)
Lemma handlePostback_GET_STARTED (senderId : value) (t : trace) :
  exists logs,
    handlePostback cfg w senderId (Str "GET_STARTED") t
    = (Ok tt,
       (t ++ [ Log INFO "Processing postback: GET_STARTED";
               send_of cfg senderId (Str "Welcome! 👋 How can I help you today?") ]
          ++ logs)%list)
    /\ forallb is_log logs = true.
Proof.
  exact (handlePostback_posts senderId (Str "GET_STARTED") "GET_STARTED" t eq_refl).
Qed.

(** A payload that names neither an entry of the table nor a property of
    [Object.prototype] is answered with the fallback. *)
Lemma handlePostback_fallback (senderId payload : value) (key : string) (t : trace) :
  to_string payload = Ok key ->
  assoc key responses = None ->
  Object_prototype key = Undefined ->
  exists logs,
    handlePostback cfg w senderId payload t
    = (Ok tt,
       (t ++ [ Log INFO ("Processing postback: " ++ key);
               send_of cfg senderId (Str fallback) ] ++ logs)%list)
    /\ forallb is_log logs = true.
Proof.
  intros Hk Hown Hproto.
  destruct (handlePostback_posts senderId payload key t Hk) as (logs & H & Hlogs).
  exists logs. split; [| exact Hlogs]. rewrite H.
  unfold responses_get. rewrite Hown, Hproto. reflexivity.
Qed.

End Postback.

(** C6.  A payload outside the table is not always answered with the
    fallback: one that names a property which the table inherits from
    [Object.prototype] finds that property, here the function [Object], and
    that is posted as the text of the message. *)
Theorem inherited_payload_misses_fallback :
  processMessage Samples.cfg Samples.services_up
    (Data (Samples.postback_event "4242" "constructor")) []
  = (Ok tt,
     [ Log INFO "Postback from 4242: constructor";
       Log INFO "Processing postback: constructor";
       send_of Samples.cfg (Str "4242") (Native (BuiltinFunction "Object"));
       Log SUCCESS "Message sent to 4242" ]).
Proof. vm_compute. reflexivity. Qed.

(** * Further properties of the server *)

(** ** The signature check, by cases *)

(** X1.  With the app secret set and no raw body stored, the check of a
    request whose body serializes to [text] goes by the header alone: absent
    or empty it is refused; of the length of the expected signature (71
    bytes) it is accepted when it is that signature and refused when it is
    not; of any other length the comparison throws. *)
Theorem verifyRequestSignature_cases
    (cfg : config) (req : request) (secret text : string) :
  rawBody req = None ->
  FACEBOOK_APP_SECRET cfg = Some secret ->
  JSON_stringify (body req) = Some text ->
  (headers req "x-hub-signature-256" = None
   \/ headers req "x-hub-signature-256" = Some EmptyString ->
   verifyRequestSignature cfg req = Ok false)
  /\ (headers req "x-hub-signature-256"
      = Some ("sha256=" ++ Crypto.hmac_sha256_hex secret text) ->
      verifyRequestSignature cfg req = Ok true)
  /\ (forall signature,
        headers req "x-hub-signature-256" = Some signature ->
        String.length signature = 71%nat ->
        signature <> "sha256=" ++ Crypto.hmac_sha256_hex secret text ->
        verifyRequestSignature cfg req = Ok false)
  /\ (forall signature,
        headers req "x-hub-signature-256" = Some signature ->
        signature <> EmptyString ->
        String.length signature <> 71%nat ->
        verifyRequestSignature cfg req
        = Throw (RangeError "Input buffers must have the same byte length")).
Proof.
  intros Hraw Hs Hb. repeat split.
  - intros [H | H]; unfold verifyRequestSignature; rewrite H; reflexivity.
  - intros H.
    rewrite (verifyRequestSignature_reserializes cfg req _ secret text Hraw H);
      [| discriminate | assumption | assumption].
    unfold timingSafeEqual. now rewrite Nat.eqb_refl, String.eqb_refl.
  - intros signature H Hlen Hne.
    rewrite (verifyRequestSignature_reserializes cfg req _ secret text Hraw H);
      [| intros ->; discriminate Hlen | assumption | assumption].
    unfold timingSafeEqual. rewrite Hlen, expected_signature_length. simpl Nat.eqb.
    destruct (String.eqb signature _) eqn:E; [| reflexivity].
    apply String.eqb_eq in E. contradiction.
  - intros signature H Hne Hlen.
    rewrite (verifyRequestSignature_reserializes cfg req _ secret text Hraw H);
      [| assumption | assumption | assumption].
    unfold timingSafeEqual. rewrite expected_signature_length.
    destruct (Nat.eqb (String.length signature) 71) eqn:E; [| reflexivity].
    apply Nat.eqb_eq in E. contradiction.
Qed.

Lemma verifyRequestSignature_cases_witness :
  verifyRequestSignature Samples.cfg
    (Samples.post_request (Samples.signature_of Samples.link_text_stringified)
       Samples.link_body)
  = Ok true.
Proof.
  apply (verifyRequestSignature_cases Samples.cfg
           (Samples.post_request (Samples.signature_of Samples.link_text_stringified)
              Samples.link_body)
           "app-secret" Samples.link_text_stringified).
  - reflexivity.
  - reflexivity.
  - reflexivity.
  - reflexivity.
Defined.



(** X3.  Without an app secret in the configuration, every request that
    brings a signature header makes the handler throw: it is neither refused
    nor accepted, and nothing is logged. *)
Theorem signed_request_without_secret_throws
    (cfg : config) (w : world) (req : request) (signature : string) (t : trace) :
  FACEBOOK_APP_SECRET cfg = None ->
  headers req "x-hub-signature-256" = Some signature ->
  signature <> EmptyString ->
  exists message, post_webhook cfg w req t = (Throw (TypeError message), t).
Proof.
  intros Hs Hh Hne. unfold post_webhook, verifyRequestSignature.
  rewrite Hh, Hs. destruct (String.eqb signature EmptyString) eqn:E.
  - apply String.eqb_eq in E. contradiction.
  - eexists. reflexivity.
Qed.

Lemma signed_request_without_secret_throws_witness :
  exists message,
    post_webhook MoreSamples.no_secret Samples.services_up
      (Samples.post_request "sha256=00" Samples.link_body) []
    = (Throw (TypeError message), []).
Proof.
  apply (signed_request_without_secret_throws MoreSamples.no_secret Samples.services_up
           (Samples.post_request "sha256=00" Samples.link_body) "sha256=00" []).
  - reflexivity.
  - reflexivity.
  - intros H. discriminate H.
Defined.

(** ** What the handler does with a request *)

(** X4.  A request that is refused is not processed: without the signature
    header, or with an empty one, whatever the body and the configuration,
    and with a wrong signature of the right length, the answer is 403 and
    the only effect is the line of the log; no event is handled and no
    service called. *)
Theorem refused_request_not_processed
    (cfg : config) (w : world) (req : request) (t : trace) :
  (headers req "x-hub-signature-256" = None
   \/ headers req "x-hub-signature-256" = Some EmptyString ->
   post_webhook cfg w req t
   = (Ok (Response 403 (Str "Unauthorized")),
      (t ++ [Log ERROR "Invalid request signature"])%list))
  /\ (forall signature secret text,
        rawBody req = None ->
        headers req "x-hub-signature-256" = Some signature ->
        FACEBOOK_APP_SECRET cfg = Some secret ->
        JSON_stringify (body req) = Some text ->
        String.length signature = 71%nat ->
        signature <> "sha256=" ++ Crypto.hmac_sha256_hex secret text ->
        post_webhook cfg w req t
        = (Ok (Response 403 (Str "Unauthorized")),
           (t ++ [Log ERROR "Invalid request signature"])%list)).
Proof.
  split.
  - apply post_webhook_without_signature.
  - intros signature secret text. apply post_webhook_wrong_signature.
Qed.

Lemma refused_request_not_processed_witness :
  post_webhook Samples.cfg Samples.services_up
    (Request Samples.no_query Samples.no_headers None Samples.link_body) []
  = (Ok (Response 403 (Str "Unauthorized")), [Log ERROR "Invalid request signature"])
  /\ post_webhook Samples.cfg Samples.services_up
       (Samples.post_request (Samples.signature_of "something else") Samples.link_body) []
     = (Ok (Response 403 (Str "Unauthorized")), [Log ERROR "Invalid request signature"]).
Proof.
  split.
  - apply (proj1 (refused_request_not_processed Samples.cfg Samples.services_up
                    (Request Samples.no_query Samples.no_headers None Samples.link_body) [])).
    left. reflexivity.
  - apply (proj2 (refused_request_not_processed Samples.cfg Samples.services_up
                    (Samples.post_request (Samples.signature_of "something else")
                       Samples.link_body) [])
             (Samples.signature_of "something else") "app-secret"
             Samples.link_text_stringified).
    + reflexivity.
    + reflexivity.
    + reflexivity.
    + reflexivity.
    + vm_compute. reflexivity.
    + vm_compute. intros H. discriminate H.
Defined.

(** X5.  A verified webhook whose [object] is not the string page is
    answered 200 OK at once: the handler logs the body and handles none of
    the events it may hold. *)
Theorem other_object_not_processed
    (cfg : config) (w : world) (req : request) (o : value) (t : trace) :
  verifyRequestSignature cfg req = Ok true ->
  get (body req) f_object = Ok o ->
  is_string o "page" = false ->
  post_webhook cfg w req t
  = (Ok (Response 200 (Str "OK")), (t ++ [received_line (body req)])%list).
Proof.
  intros Hv Ho Hpage. unfold post_webhook.
  rewrite (bind_lift_ok _ _ _ _ Hv). cbn [negb].
  unfold logger_info. rewrite bind_emit. fold (received_line (body req)).
  rewrite (bind_lift_ok _ _ _ _ Ho). rewrite Hpage. reflexivity.
Qed.

Lemma other_object_not_processed_witness :
  fst (post_webhook Samples.cfg Samples.services_up
         (Samples.post_request (Samples.accepted_signature MoreSamples.user_webhook)
            MoreSamples.user_webhook) [])
  = Ok (Response 200 (Str "OK"))
  /\ posts_of (snd (post_webhook Samples.cfg Samples.services_up
                      (Samples.post_request
                         (Samples.accepted_signature MoreSamples.user_webhook)
                         MoreSamples.user_webhook) []))
     = [].
Proof.
  rewrite (other_object_not_processed Samples.cfg Samples.services_up
             (Samples.post_request (Samples.accepted_signature MoreSamples.user_webhook)
                MoreSamples.user_webhook) (Str "user") []).
  - split; reflexivity.
  - vm_compute. reflexivity.
  - reflexivity.
  - reflexivity.
Defined.

(** ** One event at a time *)

Lemma prompts_of_app (t1 t2 : trace) :
  prompts_of (t1 ++ t2)%list = (prompts_of t1 ++ prompts_of t2)%list.
Proof. unfold prompts_of. apply flat_map_app. Qed.

Ltac split_case :=
  match goal with
  | |- context [match ?x with Ok _ => _ | Throw _ => _ end] => destruct x
  | |- context [match ?x with inl _ => _ | inr _ => _ end] => destruct x
  | |- context [if ?x then _ else _] => destruct x
  end.

(** The handling of one event completes normally, with at most one call to
    the generative API and at most one post to the messaging API. *)
Lemma handle_event_bounded (cfg : config) (w : world) (event : value) (t : trace) :
  exists d,
    handle_event cfg w event t = (Ok tt, (t ++ d)%list)
    /\ (List.length (posts_of d) <= 1)%nat
    /\ (List.length (prompts_of d) <= 1)%nat.
Proof.
  unfold handle_event, processMessage, handlePostback, sendMessageToFacebook,
    generateResponseWithGemini, generateContent, axios_post, try_catch, bind, lift,
    ret, logger_info, logger_success, logger_error, emit.
  repeat (cbn beta iota; split_case);
    cbn beta iota; repeat rewrite <- app_assoc;
    first [ exists []; rewrite app_nil_r; repeat split; simpl; lia
          | eexists; repeat split; simpl; lia ].
Qed.

Lemma for_of_handle_event_bounded
    (cfg : config) (w : world) (events : list value) (t : trace) :
  exists d,
    for_of events (handle_event cfg w) t = (Ok tt, (t ++ d)%list)
    /\ (List.length (posts_of d) <= List.length events)%nat
    /\ (List.length (prompts_of d) <= List.length events)%nat.
Proof.
  revert t. induction events as [| ev events IH]; intros t.
  - exists []. simpl. rewrite app_nil_r. repeat split; lia.
  - destruct (handle_event_bounded cfg w ev t) as (d0 & H0 & Hp0 & Hg0).
    destruct (IH (t ++ d0)%list) as (d1 & H1 & Hp1 & Hg1).
    exists (d0 ++ d1)%list. simpl for_of. rewrite (bind_ok _ _ _ _ _ H0), H1.
    rewrite app_assoc, posts_of_app, prompts_of_app, !length_app.
    simpl List.length. repeat split; lia.
Qed.

(** X6.  A verified page webhook whose entries can be iterated is answered
    200 OK, and what the handler does on the way is bounded by the events
    the webhook holds: at most one call to the generative API and at most
    one post to the messaging API for each of them. *)
Theorem one_reply_per_event
    (cfg : config) (w : world) (req : request) (ess : list (list value)) (t : trace) :
  verifyRequestSignature cfg req = Ok true ->
  page_entries (body req) ess ->
  exists d,
    post_webhook cfg w req t = (Ok (Response 200 (Str "OK")), (t ++ d)%list)
    /\ (List.length (posts_of d) <= List.length (List.concat ess))%nat
    /\ (List.length (prompts_of d) <= List.length (List.concat ess))%nat.
Proof.
  intros Hv Hpage. rewrite (post_webhook_page cfg w req ess t Hv Hpage).
  destruct (for_of_handle_event_bounded cfg w (List.concat ess)
              (t ++ [received_line (body req)])%list) as (d & Hd & Hp & Hg).
  exists (received_line (body req) :: d). rewrite Hd. cbn [snd].
  rewrite <- app_assoc. repeat split; assumption.
Qed.

Lemma one_reply_per_event_witness :
  exists d,
    post_webhook Samples.cfg Samples.services_up
      (Samples.post_request
         (Samples.accepted_signature
            (Samples.page [Samples.entry_of [Samples.text_message "4242" "Hi"]]))
         (Samples.page [Samples.entry_of [Samples.text_message "4242" "Hi"]])) []
    = (Ok (Response 200 (Str "OK")), d)
    /\ (List.length (posts_of d) <= 1)%nat
    /\ (List.length (prompts_of d) <= 1)%nat.
Proof.
  destruct (one_reply_per_event Samples.cfg Samples.services_up
              (Samples.post_request
                 (Samples.accepted_signature
                    (Samples.page [Samples.entry_of [Samples.text_message "4242" "Hi"]]))
                 (Samples.page [Samples.entry_of [Samples.text_message "4242" "Hi"]]))
              [[Data (Samples.text_message "4242" "Hi")]] [])
    as (d & Hd & Hp & Hg).
  - vm_compute. reflexivity.
  - split.
    + exists (Str "page"). split; reflexivity.
    + exists [Data (Samples.entry_of [Samples.text_message "4242" "Hi"])].
      split; [reflexivity |]. constructor; [reflexivity | constructor].
  - exists d. repeat split; assumption.
Defined.

(** X7.  In a verified page webhook whose entries can be iterated, the
    events are handled one after the other, those of the first entry first,
    each under its own [try]: after the line that logs the body, the trace is
    that of handling the events of all entries in order. *)
Theorem events_handled_in_order
    (cfg : config) (w : world) (req : request) (ess : list (list value)) (t : trace) :
  verifyRequestSignature cfg req = Ok true ->
  page_entries (body req) ess ->
  post_webhook cfg w req t
  = (Ok (Response 200 (Str "OK")),
     snd (for_of (List.concat ess) (handle_event cfg w)
            (t ++ [received_line (body req)])%list)).
Proof. apply post_webhook_page. Qed.

Lemma events_handled_in_order_witness :
  posts_of
    (snd (post_webhook Samples.cfg Samples.services_up
            (Samples.post_request
               (Samples.accepted_signature
                  (Samples.page [ Samples.entry_of [Samples.text_message "1" "Hi"];
                                  Samples.entry_of [Samples.postback_event "2" "MENU_INFO"] ]))
               (Samples.page [ Samples.entry_of [Samples.text_message "1" "Hi"];
                               Samples.entry_of [Samples.postback_event "2" "MENU_INFO"] ]))
            []))
  = [ SendPayload (Str "1") (Str "Hello!") (Some "page-token");
      SendPayload (Str "2") (Str "Here's our business information...") (Some "page-token") ].
Proof.
  rewrite (events_handled_in_order Samples.cfg Samples.services_up
             (Samples.post_request
                (Samples.accepted_signature
                   (Samples.page [ Samples.entry_of [Samples.text_message "1" "Hi"];
                                   Samples.entry_of [Samples.postback_event "2" "MENU_INFO"] ]))
                (Samples.page [ Samples.entry_of [Samples.text_message "1" "Hi"];
                                Samples.entry_of [Samples.postback_event "2" "MENU_INFO"] ]))
             [ [Data (Samples.text_message "1" "Hi")];
               [Data (Samples.postback_event "2" "MENU_INFO")] ] []).
  - vm_compute. reflexivity.
  - vm_compute. reflexivity.
  - split.
    + exists (Str "page"). split; reflexivity.
    + exists [ Data (Samples.entry_of [Samples.text_message "1" "Hi"]);
               Data (Samples.entry_of [Samples.postback_event "2" "MENU_INFO"]) ].
      split; [reflexivity |].
      constructor; [reflexivity | constructor; [reflexivity | constructor]].
Defined.

(** X8.  An event whose sender cannot be read is not answered: handling it
    logs the TypeError of the read as an error and does nothing else, be the
    sender missing or [null]. *)
Theorem event_without_sender_logged
    (cfg : config) (w : world) (event : value) (t : trace) :
  (get event f_sender = Ok Undefined ->
   handle_event cfg w event t
   = (Ok tt,
      (t ++ [Log ERROR
               "Error processing message: Cannot read properties of undefined (reading 'id')"])%list))
  /\ (get event f_sender = Ok (Data JNull) ->
      handle_event cfg w event t
      = (Ok tt,
         (t ++ [Log ERROR
                  "Error processing message: Cannot read properties of null (reading 'id')"])%list)).
Proof.
  split; intros H; unfold handle_event, processMessage, try_catch, bind, lift;
    rewrite H; reflexivity.
Qed.

Lemma event_without_sender_logged_witness :
  handle_event Samples.cfg Samples.services_up
    (Data (MoreSamples.anonymous_message "Hi")) []
  = (Ok tt,
     [Log ERROR
        "Error processing message: Cannot read properties of undefined (reading 'id')"]).
Proof.
  apply (proj1 (event_without_sender_logged Samples.cfg Samples.services_up
                  (Data (MoreSamples.anonymous_message "Hi")) [])).
  reflexivity.
Defined.

(** ** The three kinds of event *)

(** When the call succeeds, the reply is the text of the response,
    trimmed. *)
Lemma generateResponseWithGemini_success
    (w : world) (userMessage : value) (u text : string) (t : trace) :
  to_string userMessage = Ok u ->
  generative_api w t (prompt_of u) = inl text ->
  generateResponseWithGemini w userMessage t
  = (Ok (Text.trim text),
     (t ++ [ GenerateContent (prompt_of u);
             Log SUCCESS ("Gemini response: " ++ Text.trim text) ])%list).
Proof.
  intros Hu He.
  unfold generateResponseWithGemini, try_catch, bind, lift, generateContent,
    logger_success, emit, ret.
  rewrite Hu, He. rewrite <- app_assoc. reflexivity.
Qed.

Lemma prompts_of_logs (logs : trace) :
  forallb is_log logs = true -> prompts_of logs = [].
Proof.
  induction logs as [| e logs IH]; [reflexivity |].
  cbn [forallb]. intros H. apply andb_prop in H as [He Hl].
  destruct e; try discriminate He. simpl. apply IH, Hl.
Qed.

Lemma assoc_miss {A : Type} (k : string) (l : list (string * A)) :
  ~ In k (map fst l) -> assoc k l = None.
Proof.
  induction l as [| [k' a] l IH]; [reflexivity |].
  simpl. intros H. destruct (String.eqb k k') eqn:E.
  - apply String.eqb_eq in E. subst. exfalso. apply H. now left.
  - apply IH. intros Hin. apply H. now right.
Qed.

(** A name that [Object.prototype] does not define reads as [undefined]. *)
Lemma Object_prototype_miss (key : string) :
  ~ In key Object_prototype_names -> Object_prototype key = Undefined.
Proof.
  unfold Object_prototype, Object_prototype_names. intros H. cbn [existsb].
  repeat (cbn [orb];
          match goal with
          | |- context [String.eqb key ?name] =>
              let E := fresh "E" in
              destruct (String.eqb key name) eqn:E;
              [ apply String.eqb_eq in E; exfalso; apply H; rewrite E; simpl; tauto | ]
          end).
  reflexivity.
Qed.

Section Kinds.

Variable cfg : config.
Variable w : world.

(** X9.  A text-message event is answered once: the message is logged, the
    generative API is called once with the prompt built on the text, the
    outcome is logged, and one message is posted to the sender.  Its text is
    the response of the API with the white space around it trimmed, or the
    apology when the API fails. *)
Theorem text_event_answered_once
    (event sid : value) (s u : string) (t : trace) :
  text_event event sid s u ->
  exists line logs,
    processMessage cfg w event t
    = (Ok tt,
       (t ++ [ Log INFO ("Message from " ++ s ++ ": " ++ u);
               GenerateContent (prompt_of u);
               line;
               send_of cfg sid
                 (Str match generative_api w
                              (t ++ [Log INFO ("Message from " ++ s ++ ": " ++ u)])%list
                              (prompt_of u) with
                      | inl text => Text.trim text
                      | inr _ => apology
                      end) ] ++ logs)%list)
    /\ is_log line = true
    /\ forallb is_log logs = true.
Proof.
  intros (Hs & [rid Hr] & Hsid & Hm & Hu).
  destruct (get event f_message) as [m | e0] eqn:Hmsg; [| discriminate Hm].
  simpl in Hm. destruct (get_data_object _ _ _ Hm) as [props ->].
  assert (Htr : truthy (Str u) = true).
  { simpl. destruct (String.eqb u EmptyString) eqn:E; [| reflexivity].
    apply String.eqb_eq in E. contradiction. }
  unfold processMessage. unfold sender_id in Hs. unfold recipient_id_of in Hr.
  rewrite (bind_lift_ok _ _ _ _ Hs), (bind_lift_ok _ _ _ _ Hr), (bind_lift_ok _ _ _ _ Hmsg).
  cbn [truthy]. rewrite (bind_lift_ok _ _ _ _ Hm), Htr, (bind_lift_ok _ _ _ _ Hsid).
  rewrite (bind_lift_ok (to_string (Str u)) _ _ u eq_refl).
  unfold logger_info. rewrite bind_emit.
  set (t1 := (t ++ [Log INFO ("Message from " ++ s ++ ": " ++ u)])%list).
  destruct (generative_api w t1 (prompt_of u)) as [text | e] eqn:He.
  - rewrite (bind_ok _ _ _ _ _
               (generateResponseWithGemini_success w (Str u) u text t1 eq_refl He)).
    destruct (sendMessageToFacebook_run cfg w sid (Str (Text.trim text))
                (t1 ++ [ GenerateContent (prompt_of u);
                         Log SUCCESS ("Gemini response: " ++ Text.trim text) ])%list)
      as (logs & Hsend & Hlogs & _).
    exists (Log SUCCESS ("Gemini response: " ++ Text.trim text)), logs.
    rewrite Hsend. unfold t1. repeat rewrite <- app_assoc. repeat split; assumption.
  - rewrite (bind_ok _ _ _ _ _
               (generateResponseWithGemini_failure w (Str u) u e t1 eq_refl He)).
    destruct (sendMessageToFacebook_run cfg w sid (Str apology)
                (t1 ++ [ GenerateContent (prompt_of u);
                         Log ERROR ("Error calling Gemini API: " ++ err_message e) ])%list)
      as (logs & Hsend & Hlogs & _).
    exists (Log ERROR ("Error calling Gemini API: " ++ err_message e)), logs.
    rewrite Hsend. unfold t1. repeat rewrite <- app_assoc. repeat split; assumption.
Qed.

(** What a postback event does, for every payload: two lines of the log,
    one post to the sender, whose text is what the table has under the
    payload if that is truthy, and log lines after it. *)
Lemma postback_event_posts
    (event sid payload : value) (s key : string) (t : trace) :
  postback_event event sid s payload key ->
  exists d,
    processMessage cfg w event t = (Ok tt, (t ++ d)%list)
    /\ posts_of d
       = [SendPayload sid
            (if truthy (responses_get key) then responses_get key else Str fallback)
            (FACEBOOK_PAGE_ACCESS_TOKEN cfg)]
    /\ prompts_of d = [].
Proof.
  intros (Hs & [rid Hr] & Hsid & (m & Hm & Hmf) & (pb & Hpb & Hpt & Hpay) & Hkey).
  unfold processMessage. unfold sender_id in Hs. unfold recipient_id_of in Hr.
  rewrite (bind_lift_ok _ _ _ _ Hs), (bind_lift_ok _ _ _ _ Hr), (bind_lift_ok _ _ _ _ Hm).
  rewrite Hmf, (bind_lift_ok _ _ _ _ Hpb), Hpt, (bind_lift_ok _ _ _ _ Hpay).
  rewrite (bind_lift_ok _ _ _ _ Hsid), (bind_lift_ok _ _ _ _ Hkey).
  unfold logger_info. rewrite bind_emit.
  destruct (handlePostback_posts cfg w sid payload key
              (t ++ [Log INFO ("Postback from " ++ s ++ ": " ++ key)])%list Hkey)
    as (logs & H & Hlogs).
  rewrite H.
  exists ([Log INFO ("Postback from " ++ s ++ ": " ++ key)]
          ++ [ Log INFO ("Processing postback: " ++ key);
               send_of cfg sid
                 (if truthy (responses_get key) then responses_get key else Str fallback) ]
          ++ logs)%list.
  rewrite !posts_of_app, !prompts_of_app, (posts_of_logs logs Hlogs),
    (prompts_of_logs logs Hlogs), <- app_assoc.
  repeat split; reflexivity.
Qed.

(** X10.  A postback event whose payload is a key of the table is answered
    with the reply of the table, posted once to the sender, and the
    generative API is not called. *)
Theorem postback_in_table_answered
    (event sid payload : value) (s key canned : string) (t : trace) :
  postback_event event sid s payload key ->
  In (key, canned) responses ->
  exists d,
    processMessage cfg w event t = (Ok tt, (t ++ d)%list)
    /\ posts_of d = [SendPayload sid (Str canned) (FACEBOOK_PAGE_ACCESS_TOKEN cfg)]
    /\ prompts_of d = [].
Proof.
  intros Hev Hin.
  destruct (postback_event_posts event sid payload s key t Hev) as (d & H & Hp & Hg).
  exists d. repeat split; try assumption. rewrite Hp.
  simpl in Hin. destruct Hin as [E | [E | [E | []]]]; injection E as <- <-; reflexivity.
Qed.

(** X11.  A postback event whose payload is neither a key of the table nor
    the name of a property of [Object.prototype] is answered with the
    fallback, posted once to the sender, and the generative API is not
    called. *)
Theorem postback_unknown_answered
    (event sid payload : value) (s key : string) (t : trace) :
  postback_event event sid s payload key ->
  ~ In key (map fst responses) ->
  ~ In key Object_prototype_names ->
  exists d,
    processMessage cfg w event t = (Ok tt, (t ++ d)%list)
    /\ posts_of d = [SendPayload sid (Str fallback) (FACEBOOK_PAGE_ACCESS_TOKEN cfg)]
    /\ prompts_of d = [].
Proof.
  intros Hev Hown Hproto.
  destruct (postback_event_posts event sid payload s key t Hev) as (d & H & Hp & Hg).
  exists d. repeat split; try assumption. rewrite Hp.
  unfold responses_get.
  rewrite (assoc_miss key responses Hown), (Object_prototype_miss key Hproto).
  reflexivity.
Qed.

(** X12.  A message whose text is falsy, the empty string among others, is
    ignored like one without text: [processMessage] completes normally and
    leaves the trace as it was, whether or not the event has a postback. *)
Theorem message_with_falsy_text_ignored
    (event sid rid m text : value) (t : trace) :
  sender_id event = Ok sid ->
  recipient_id_of event = Ok rid ->
  get event f_message = Ok m ->
  truthy m = true ->
  get m f_text = Ok text ->
  truthy text = false ->
  processMessage cfg w event t = (Ok tt, t).
Proof.
  intros Hs Hr Hm Hmt Ht Htf. unfold processMessage.
  unfold sender_id in Hs. unfold recipient_id_of in Hr.
  rewrite (bind_lift_ok _ _ _ _ Hs), (bind_lift_ok _ _ _ _ Hr), (bind_lift_ok _ _ _ _ Hm).
  rewrite Hmt, (bind_lift_ok _ _ _ _ Ht), Htf. reflexivity.
Qed.

(** X13.  An event that has neither a truthy message nor a truthy postback
    (a delivery or read receipt, say) is ignored: [processMessage] completes
    normally and leaves the trace as it was. *)
Theorem other_event_ignored
    (event sid rid m pb : value) (t : trace) :
  sender_id event = Ok sid ->
  recipient_id_of event = Ok rid ->
  get event f_message = Ok m ->
  truthy m = false ->
  get event f_postback = Ok pb ->
  truthy pb = false ->
  processMessage cfg w event t = (Ok tt, t).
Proof.
  intros Hs Hr Hm Hmf Hpb Hpf. unfold processMessage, bind, lift.
  unfold sender_id in Hs. unfold recipient_id_of in Hr.
  rewrite Hs, Hr, Hm, Hmf, Hpb, Hpf. unfold ret. rewrite Hmf. reflexivity.
Qed.

(** X14.  Where an event has a truthy message, nothing else of the event
    counts but the identifiers: two such events with the same sender,
    recipient and message are handled alike, whatever postback either
    carries. *)
Theorem message_shadows_postback (event1 event2 m : value) (t : trace) :
  sender_id event1 = sender_id event2 ->
  recipient_id_of event1 = recipient_id_of event2 ->
  get event1 f_message = Ok m ->
  get event2 f_message = Ok m ->
  truthy m = true ->
  processMessage cfg w event1 t = processMessage cfg w event2 t.
Proof.
  intros Hs Hr Hm1 Hm2 Ht. unfold processMessage, bind, lift.
  unfold sender_id in Hs. unfold recipient_id_of in Hr.
  rewrite Hs, Hr, Hm1, Hm2, Ht. reflexivity.
Qed.

(** X15.  A delivery is logged as sent only for the status 200: when the
    messaging API answers with another status that [axios] resolves with,
    the post is all that [sendMessageToFacebook] does and no line is
    logged. *)
Theorem delivery_logged_only_for_200
    (recipientId messageText : value) (st : Z) (t : trace) :
  messaging_api w t messages_url
    (SendPayload recipientId messageText (FACEBOOK_PAGE_ACCESS_TOKEN cfg)) = inl st ->
  st <> 200 ->
  sendMessageToFacebook cfg w recipientId messageText t
  = (Ok tt, (t ++ [send_of cfg recipientId messageText])%list).
Proof.
  intros Hapi Hst.
  unfold sendMessageToFacebook, try_catch, bind, axios_post, send_of. rewrite Hapi.
  destruct (st =? 200) eqn:E; [| reflexivity].
  apply Z.eqb_eq in E. contradiction.
Qed.

End Kinds.

Lemma text_event_answered_once_witness :
  exists line logs,
    processMessage Samples.cfg MoreSamples.services_accepting
      (Data (Samples.text_message "4242" "Hi")) []
    = (Ok tt,
       [ Log INFO "Message from 4242: Hi";
         GenerateContent (prompt_of "Hi");
         line;
         send_of Samples.cfg (Str "4242") (Str "Hello!") ] ++ logs)%list
    /\ is_log line = true
    /\ forallb is_log logs = true.
Proof.
  apply (text_event_answered_once Samples.cfg MoreSamples.services_accepting
           (Data (Samples.text_message "4242" "Hi")) (Str "4242") "4242" "Hi" []).
  repeat split; try reflexivity.
  - exists (Str "page"). reflexivity.
  - intros H. discriminate H.
Defined.

Lemma sample_postback_event (sender payload : string) :
  postback_event (Data (Samples.postback_event sender payload))
    (Str sender) sender (Str payload) payload.
Proof.
  repeat split.
  - exists (Str "page"). reflexivity.
  - exists Undefined. split; reflexivity.
  - exists (Data (JObj [("title", JStr "button"); ("payload", JStr payload)])).
    repeat split.
Qed.

Lemma postback_in_table_answered_witness :
  exists d,
    processMessage Samples.cfg Samples.services_up
      (Data (Samples.postback_event "4242" "MENU_SUPPORT")) []
    = (Ok tt, d)
    /\ posts_of d
       = [SendPayload (Str "4242")
            (Str "Select an issue: 1) Billing 2) Technical 3) General")
            (Some "page-token")]
    /\ prompts_of d = [].
Proof.
  apply (postback_in_table_answered Samples.cfg Samples.services_up
           (Data (Samples.postback_event "4242" "MENU_SUPPORT")) (Str "4242")
           (Str "MENU_SUPPORT") "4242" "MENU_SUPPORT"
           "Select an issue: 1) Billing 2) Technical 3) General" []).
  - apply sample_postback_event.
  - simpl. right. right. left. reflexivity.
Defined.

Lemma postback_unknown_answered_witness :
  exists d,
    processMessage Samples.cfg Samples.services_up
      (Data (Samples.postback_event "4242" "MENU_PRICES")) []
    = (Ok tt, d)
    /\ posts_of d
       = [SendPayload (Str "4242") (Str "I didn't understand that action.")
            (Some "page-token")]
    /\ prompts_of d = [].
Proof.
  apply (postback_unknown_answered Samples.cfg Samples.services_up
           (Data (Samples.postback_event "4242" "MENU_PRICES")) (Str "4242")
           (Str "MENU_PRICES") "4242" "MENU_PRICES" []).
  - apply sample_postback_event.
  - simpl. intros [H | [H | [H | []]]]; discriminate H.
  - simpl. intuition discriminate.
Defined.

Lemma message_with_falsy_text_ignored_witness :
  processMessage Samples.cfg Samples.services_up
    (Data (MoreSamples.empty_text_message "4242")) []
  = (Ok tt, []).
Proof.
  apply (message_with_falsy_text_ignored Samples.cfg Samples.services_up
           (Data (MoreSamples.empty_text_message "4242")) (Str "4242") (Str "page")
           (Data (JObj [("mid", JStr "m4"); ("text", JStr EmptyString)]))
           (Str EmptyString) []).
  - reflexivity.
  - reflexivity.
  - reflexivity.
  - reflexivity.
  - reflexivity.
  - reflexivity.
Defined.

Lemma other_event_ignored_witness :
  processMessage Samples.cfg Samples.services_up
    (Data (MoreSamples.delivery_receipt "4242")) []
  = (Ok tt, []).
Proof.
  apply (other_event_ignored Samples.cfg Samples.services_up
           (Data (MoreSamples.delivery_receipt "4242")) (Str "4242") (Str "page")
           Undefined Undefined []).
  - reflexivity.
  - reflexivity.
  - reflexivity.
  - reflexivity.
  - reflexivity.
  - reflexivity.
Defined.

Lemma message_shadows_postback_witness :
  processMessage Samples.cfg Samples.services_up
    (Data (MoreSamples.message_with_postback "4242" "Hi" "GET_STARTED")) []
  = processMessage Samples.cfg Samples.services_up
      (Data (Samples.text_message "4242" "Hi")) [].
Proof.
  apply (message_shadows_postback Samples.cfg Samples.services_up
           (Data (MoreSamples.message_with_postback "4242" "Hi" "GET_STARTED"))
           (Data (Samples.text_message "4242" "Hi"))
           (Data (JObj [("mid", JStr "m1"); ("text", JStr "Hi")])) []).
  - reflexivity.
  - reflexivity.
  - reflexivity.
  - reflexivity.
  - reflexivity.
Defined.

Lemma delivery_logged_only_for_200_witness :
  sendMessageToFacebook Samples.cfg MoreSamples.services_accepting
    (Str "4242") (Str "Hello!") []
  = (Ok tt, [send_of Samples.cfg (Str "4242") (Str "Hello!")]).
Proof.
  apply (delivery_logged_only_for_200 Samples.cfg MoreSamples.services_accepting
           (Str "4242") (Str "Hello!") 202 []).
  - reflexivity.
  - intros H. discriminate H.
Defined.

(** ** The layers of the application *)

Section Layers.

Variable cfg : config.
Variable w : world.
Variable parse_body : string -> option value.
Variable now : string.
Variable node_env : option string.

Ltac run_app :=
  cbn [run_layers step fl_failed fl_parsed fl_msg fl_req set_body query headers
       rawBody body].

(** X16.  A message that none of the three routes takes is answered 404
    with the JSON object of line 243, and nothing is logged or called; so it
    is for a route asked with another method. *)
Theorem unmatched_route_not_found (m : http_message) :
  content_parses parse_body m ->
  some_route_matches m = false ->
  serve cfg w parse_body now node_env m = Some (ret not_found_answer).
Proof.
  intros Hparse Hnone. unfold some_route_matches in Hnone.
  apply orb_false_iff in Hnone as [H12 H3]. apply orb_false_iff in H12 as [H1 H2].
  unfold serve, app, incoming, content_parses in *. run_app.
  destruct (http_content m) as [raw |].
  - destruct Hparse as [b Hb]. rewrite Hb. run_app.
    rewrite H1. run_app. rewrite H2. run_app. rewrite H3. reflexivity.
  - run_app. rewrite H1. run_app. rewrite H2. run_app. rewrite H3. reflexivity.
Qed.

(** X17.  A message whose JSON content the body parser does not take is
    answered 500 by the error layer of line 246, whatever its method and
    path: no route handles it, and the one effect is the line of the log. *)
Theorem unparsed_content_server_error (m : http_message) (raw : string) (t : trace) :
  http_content m = Some raw ->
  parse_body raw = None ->
  exists answer message,
    serve cfg w parse_body now node_env m = Some answer
    /\ answer t
       = (Ok server_error_answer,
          (t ++ [Log ERROR ("Unhandled error: " ++ message)])%list).
Proof.
  intros Hc Hb. unfold serve, app, incoming. run_app. rewrite Hc, Hb. run_app.
  eexists. eexists. split; reflexivity.
Qed.

(** X18.  [GET /health] is answered 200 with the status object, without a
    line of the log and without a call to either service.  Its two flags
    tell whether the key of the generative API and the page access token are
    set to a non-empty string, and the environment is development unless
    NODE_ENV names another. *)
Theorem health_reports_configuration (m : http_message) (t : trace) :
  http_method m = "GET" ->
  http_path m = "/health" ->
  content_parses parse_body m ->
  exists answer gemini facebook,
    serve cfg w parse_body now node_env m = Some answer
    /\ answer t
       = (Ok (Response 200 (Data (JObj
            [ ("status", JStr "running");
              ("timestamp", JStr now);
              ("gemini_configured", JBool gemini);
              ("facebook_configured", JBool facebook);
              ("environment", JStr (environment_name node_env)) ]))), t)
    /\ (gemini = true
        <-> exists k, GEMINI_API_KEY cfg = Some k /\ k <> EmptyString)
    /\ (facebook = true
        <-> exists k, FACEBOOK_PAGE_ACCESS_TOKEN cfg = Some k /\ k <> EmptyString).
Proof.
  intros Hm Hp Hparse.
  assert (Hset : forall v, is_set v = true <-> exists k, v = Some k /\ k <> EmptyString).
  { intros [k |]; simpl; split.
    - intros H. exists k. split; [reflexivity |]. intros ->. discriminate H.
    - intros (k' & E & Hne). injection E as ->.
      destruct (String.eqb k' EmptyString) eqn:E; [| reflexivity].
      apply String.eqb_eq in E. contradiction.
    - discriminate.
    - intros (k' & E & _). discriminate E. }
  exists (health cfg now node_env (fl_req (incoming m))),
    (is_set (GEMINI_API_KEY cfg)), (is_set (FACEBOOK_PAGE_ACCESS_TOKEN cfg)).
  split; [| split; [reflexivity | split; apply Hset]].
  unfold serve, app, incoming, content_parses in *. run_app.
  destruct (http_content m) as [raw |];
    [destruct Hparse as [b Hb]; rewrite Hb |];
    do 2 (run_app; rewrite ?Hm, ?Hp;
          replace (path_matches "/webhook" "/health") with false by reflexivity;
          rewrite andb_false_r);
    run_app; rewrite ?Hm, ?Hp; reflexivity.
Qed.

End Layers.

Lemma unmatched_route_not_found_witness :
  serve Samples.cfg Samples.services_up JsonText.express_json_parse
    MoreSamples.now None (MoreSamples.message_of "POST" "/health" (Some "{}"))
  = Some (ret not_found_answer).
Proof.
  apply (unmatched_route_not_found Samples.cfg Samples.services_up
           JsonText.express_json_parse MoreSamples.now None
           (MoreSamples.message_of "POST" "/health" (Some "{}"))).
  - exists (Data (JObj [])). reflexivity.
  - reflexivity.
Defined.

Lemma unparsed_content_server_error_witness :
  exists answer message,
    serve Samples.cfg Samples.services_up JsonText.express_json_parse
      MoreSamples.now None (MoreSamples.message_of "GET" "/health" (Some "{"))
    = Some answer
    /\ answer [] = (Ok server_error_answer, [Log ERROR ("Unhandled error: " ++ message)]).
Proof.
  apply (unparsed_content_server_error Samples.cfg Samples.services_up
           JsonText.express_json_parse MoreSamples.now None
           (MoreSamples.message_of "GET" "/health" (Some "{")) "{" []).
  - reflexivity.
  - reflexivity.
Defined.

Lemma health_reports_configuration_witness :
  exists answer gemini facebook,
    serve (Config None (Some "verify-me") (Some "page-token") (Some "app-secret"))
      Samples.services_up JsonText.express_json_parse MoreSamples.now (Some "production")
      (MoreSamples.message_of "GET" "/health" None)
    = Some answer
    /\ answer []
       = (Ok (Response 200 (Data (JObj
            [ ("status", JStr "running");
              ("timestamp", JStr MoreSamples.now);
              ("gemini_configured", JBool gemini);
              ("facebook_configured", JBool facebook);
              ("environment", JStr "production") ]))), [])
    /\ (gemini = true
        <-> exists k, @None string = Some k /\ k <> EmptyString)
    /\ (facebook = true
        <-> exists k, Some "page-token" = Some k /\ k <> EmptyString).
Proof.
  apply (health_reports_configuration
           (Config None (Some "verify-me") (Some "page-token") (Some "app-secret"))
           Samples.services_up JsonText.express_json_parse MoreSamples.now
           (Some "production") (MoreSamples.message_of "GET" "/health" None) []).
  - reflexivity.
  - reflexivity.
  - exact I.
Defined.

Lemma rawBody_never_stored_witness :
  rawBody (Request Samples.no_query
             (Samples.signed_with (Samples.signature_of Samples.link_text_on_the_wire))
             None Samples.link_body)
  = None.
Proof.
  apply (rawBody_never_stored Samples.cfg Samples.services_up
           JsonText.express_json_parse MoreSamples.now None
           (Samples.post_message (Samples.signature_of Samples.link_text_on_the_wire)
              Samples.link_text_on_the_wire)).
  vm_compute. reflexivity.
Defined.

(** ** Start-up *)


(** ** Inherited names, and entries that cannot be iterated *)

(** X22.  A postback event whose payload is the name of a property of
    [Object.prototype] is answered with no string at all: what is posted to
    the sender as the text is that inherited property, a built-in object. *)
Theorem postback_inherited_name_posts_property
    (cfg : config) (w : world) (event sid payload : value) (s key : string) (t : trace) :
  postback_event event sid s payload key ->
  In key Object_prototype_names ->
  exists d n,
    processMessage cfg w event t = (Ok tt, (t ++ d)%list)
    /\ posts_of d = [SendPayload sid (Native n) (FACEBOOK_PAGE_ACCESS_TOKEN cfg)]
    /\ prompts_of d = [].
Proof.
  intros Hev Hin.
  destruct (postback_event_posts cfg w event sid payload s key t Hev) as (d & H & Hp & Hg).
  exists d.
  assert (Hn : exists n,
             (if truthy (responses_get key) then responses_get key else Str fallback)
             = Native n).
  { unfold Object_prototype_names in Hin. simpl in Hin.
    repeat (destruct Hin as [<- | Hin]; [eexists; reflexivity |]). contradiction. }
  destruct Hn as [n Hn]. exists n. rewrite Hn in Hp. repeat split; assumption.
Qed.

Lemma postback_inherited_name_posts_property_witness :
  exists d n,
    processMessage Samples.cfg Samples.services_up
      (Data (Samples.postback_event "4242" "toString")) []
    = (Ok tt, d)
    /\ posts_of d = [SendPayload (Str "4242") (Native n) (Some "page-token")]
    /\ prompts_of d = [].
Proof.
  apply (postback_inherited_name_posts_property Samples.cfg Samples.services_up
           (Data (Samples.postback_event "4242" "toString")) (Str "4242")
           (Str "toString") "4242" "toString" []).
  - apply sample_postback_event.
  - simpl. tauto.
Defined.

(** X23.  In a verified page webhook the handler stops at the first entry
    whose messaging list cannot be iterated: the events of the entries
    before it have been handled, in order; those of the entries after it are
    not; the error of the iteration is thrown, and no answer is sent. *)
Theorem first_bad_entry_stops_handler
    (cfg : config) (w : world) (req : request) (o : value)
    (good : list value) (ess : list (list value)) (bad : value) (rest : list value)
    (e : error) (t : trace) :
  verifyRequestSignature cfg req = Ok true ->
  get (body req) f_object = Ok o ->
  is_string o "page" = true ->
  rbind (get (body req) f_entry) (iterate "body.entry") = Ok (good ++ bad :: rest)%list ->
  Forall2 (fun entry es =>
             rbind (get entry f_messaging) (iterate "entry.messaging") = Ok es)
          good ess ->
  rbind (get bad f_messaging) (iterate "entry.messaging") = Throw e ->
  post_webhook cfg w req t
  = (Throw e,
     snd (for_of (List.concat ess) (handle_event cfg w)
            (t ++ [received_line (body req)])%list)).
Proof.
  intros Hv Ho Hpage Hentries Hgood Hbad. unfold post_webhook.
  rewrite (bind_lift_ok _ _ _ _ Hv). cbn [negb].
  unfold logger_info. rewrite bind_emit. fold (received_line (body req)).
  rewrite (bind_lift_ok _ _ _ _ Ho). rewrite Hpage.
  unfold bind at 1. rewrite (bind_lift_ok _ _ _ _ Hentries).
  rewrite for_of_app. unfold bind at 1. rewrite (entries_loop cfg w _ _ _ Hgood).
  pose proof (for_of_handle_event_ok cfg w (List.concat ess)
                (t ++ [received_line (body req)])%list) as Hok.
  destruct (for_of (List.concat ess) (handle_event cfg w) _) as [[[] | e'] t'];
    simpl in Hok; [| discriminate Hok].
  cbn [snd for_of]. unfold bind, lift. rewrite Hbad. reflexivity.
Qed.

Lemma first_bad_entry_stops_handler_witness :
  fst (post_webhook Samples.cfg Samples.services_up
         (Samples.post_request
            (Samples.accepted_signature
               (Samples.page [ Samples.entry_of [Samples.text_message "4242" "Hi"];
                               Samples.changes_entry;
                               Samples.entry_of [Samples.text_message "77" "Hello"] ]))
            (Samples.page [ Samples.entry_of [Samples.text_message "4242" "Hi"];
                            Samples.changes_entry;
                            Samples.entry_of [Samples.text_message "77" "Hello"] ])) [])
  = Throw (TypeError "entry.messaging is not iterable").
Proof.
  rewrite (first_bad_entry_stops_handler Samples.cfg Samples.services_up
             (Samples.post_request
                (Samples.accepted_signature
                   (Samples.page [ Samples.entry_of [Samples.text_message "4242" "Hi"];
                                   Samples.changes_entry;
                                   Samples.entry_of [Samples.text_message "77" "Hello"] ]))
                (Samples.page [ Samples.entry_of [Samples.text_message "4242" "Hi"];
                                Samples.changes_entry;
                                Samples.entry_of [Samples.text_message "77" "Hello"] ]))
             (Str "page")
             [Data (Samples.entry_of [Samples.text_message "4242" "Hi"])]
             [[Data (Samples.text_message "4242" "Hi")]]
             (Data Samples.changes_entry)
             [Data (Samples.entry_of [Samples.text_message "77" "Hello"])]
             (TypeError "entry.messaging is not iterable") []).
  - reflexivity.
  - vm_compute. reflexivity.
  - reflexivity.
  - reflexivity.
  - reflexivity.
  - constructor; [reflexivity | constructor].
  - reflexivity.
Defined.
